(** * ITSM data pipeline (airflow/dags/itsm_data_pipeline.py)

    A shallow embedding of the DAG file: the three Python task bodies
    ([extract_itsm_data], [load_to_postgres], [run_data_quality_checks]),
    the SQL of the [create_staging_table] operator and the dependency
    wiring of the six tasks.

    The libraries the tasks call (pandas, the PostgreSQL hook, the database
    itself) are not part of the repository; each call is given a small
    executable model next to the place where the DAG uses it, and the
    comment of the model says which behaviour of the library it stands for. *)

From Stdlib Require Import ZArith QArith List Bool String Ascii Lia.
From Stdlib Require Import Permutation.
From Stdlib Require Import Floats.SpecFloat.
Import ListNotations.

Local Open Scope string_scope.
Local Open Scope list_scope.
Local Open Scope Z_scope.

(* ================================================================== *)
(** ** float64

    pandas stores the derived duration in a float64 column.  The model is
    the IEEE-754 binary64 format of [SpecFloat] (53 bits of precision,
    round to nearest even), which evaluates inside Rocq. *)

Module F64.

Definition prec : Z := 53.
Definition emax : Z := 1024.

Definition t : Type := spec_float.

(** int64 -> float64 conversion (numpy's cast), rounding to nearest. *)
Definition of_Z (z : Z) : t := binary_normalize prec emax z 0 false.

Definition div (x y : t) : t := SFdiv prec emax x y.
Definition mul (x y : t) : t := SFmul prec emax x y.

Definition is_nan (x : t) : bool :=
  match x with S754_nan => true | _ => false end.

(** The integer part of a finite float (rounding toward zero). *)
Definition trunc (x : t) : option Z :=
  match x with
  | S754_zero _ => Some 0
  | S754_finite s m e =>
      let n := if 0 <=? e then Z.pos m * 2 ^ e else Z.pos m / 2 ^ (- e) in
      Some (if s then - n else n)
  | _ => None
  end.

(** The real number a finite float denotes, as a rational. *)
Definition to_Q (x : t) : option Q :=
  match x with
  | S754_zero _ => Some (0 # 1)%Q
  | S754_finite s m e =>
      let n := if s then Z.neg m else Z.pos m in
      Some (if 0 <=? e then ((n * 2 ^ e) # 1)%Q
            else (n # (Z.to_pos (2 ^ (- e))))%Q)
  | _ => None
  end.

End F64.

(* ================================================================== *)
(** ** Timestamps

    A datetime64[ns] value is a count of nanoseconds since the Unix epoch;
    NaT is [None] at the places where a value can be missing. *)

Definition Timestamp : Type := Z.
Definition Timedelta : Type := Z.

Definition ns_per_second : Z := 1000000000.
Definition ns_per_hour : Z := 3600 * ns_per_second.

(** Days since 1970-01-01 of a proleptic Gregorian date. *)
Definition days_from_civil (y m d : Z) : Z :=
  let y' := if m <=? 2 then y - 1 else y in
  let era := y' / 400 in
  let yoe := y' - era * 400 in
  let mp := if 2 <? m then m - 3 else m + 9 in
  let doy := (153 * mp + 2) / 5 + d - 1 in
  let doe := yoe * 365 + yoe / 4 - yoe / 100 + doy in
  era * 146097 + doe - 719468.

(** The inverse: (year, month, day) of a day count. *)
Definition civil_from_days (z : Z) : Z * Z * Z :=
  let z := z + 719468 in
  let era := z / 146097 in
  let doe := z - era * 146097 in
  let yoe := (doe - doe / 1460 + doe / 36524 - doe / 146096) / 365 in
  let doy := doe - (365 * yoe + yoe / 4 - yoe / 100) in
  let mp := (5 * doy + 2) / 153 in
  let d := doy - (153 * mp + 2) / 5 + 1 in
  let m := if mp <? 10 then mp + 3 else mp - 9 in
  let y := yoe + era * 400 in
  (if m <=? 2 then y + 1 else y, m, d).

Definition mk_timestamp (y m d hh mm ss : Z) : Timestamp :=
  (days_from_civil y m d * 86400 + hh * 3600 + mm * 60 + ss) * ns_per_second.

(** *** Reading and writing the text of a timestamp *)

Definition digit_of_ascii (c : ascii) : option Z :=
  let n := Z.of_nat (nat_of_ascii c) in
  if (48 <=? n) && (n <=? 57) then Some (n - 48) else None.

Fixpoint digits_value (acc : Z) (cs : list ascii) : option Z :=
  match cs with
  | [] => Some acc
  | c :: cs' =>
      match digit_of_ascii c with
      | Some d => digits_value (10 * acc + d) cs'
      | None => None
      end
  end.

(** A non-empty run of decimal digits. *)
Definition parse_digits (cs : list ascii) : option Z :=
  match cs with
  | [] => None
  | _ => digits_value 0 cs
  end.

Definition ascii_of_digit (d : Z) : ascii :=
  ascii_of_nat (Z.to_nat (48 + d mod 10)).

(** [width] decimal digits of [n], most significant first, zero padded. *)
Fixpoint pad_digits (width : nat) (n : Z) (acc : list ascii) : list ascii :=
  match width with
  | O => acc
  | S w => pad_digits w (n / 10) (ascii_of_digit n :: acc)
  end.

Fixpoint nat_digits (fuel : nat) (n : Z) (acc : list ascii) : list ascii :=
  match fuel with
  | O => acc
  | S f =>
      let acc' := ascii_of_digit n :: acc in
      if n / 10 =? 0 then acc' else nat_digits f (n / 10) acc'
  end.

(** Python's [str] of an int. *)
Definition string_of_Z (z : Z) : string :=
  let body := nat_digits (S (Z.to_nat (Z.log2 (Z.abs z)))) (Z.abs z) [] in
  string_of_list_ascii (if z <? 0 then "-"%char :: body else body).

Definition sep_is (c : ascii) (cs : list ascii) : bool :=
  match cs with
  | [c'] => Ascii.eqb c c'
  | _ => false
  end.

Definition slice (cs : list ascii) (from len : nat) : list ascii :=
  firstn len (skipn from cs).

(** The ISO 8601 spellings [YYYY-MM-DD], [YYYY-MM-DD HH:MM:SS] and
    [YYYY-MM-DDTHH:MM:SS].  [pd.to_datetime] accepts more spellings than
    these; a text outside them is treated here as one it cannot parse. *)
Definition parse_datetime (s : string) : option Timestamp :=
  let cs := list_ascii_of_string s in
  match parse_digits (slice cs 0 4), parse_digits (slice cs 5 2),
        parse_digits (slice cs 8 2) with
  | Some y, Some m, Some d =>
      if negb (sep_is "-" (slice cs 4 1) && sep_is "-" (slice cs 7 1)) then None
      else if negb ((1 <=? m) && (m <=? 12) && (1 <=? d) && (d <=? 31))
      then None
      else if (List.length cs =? 10)%nat then Some (mk_timestamp y m d 0 0 0)
      else if negb ((List.length cs =? 19)%nat
                    && (sep_is " " (slice cs 10 1) || sep_is "T" (slice cs 10 1))
                    && sep_is ":" (slice cs 13 1) && sep_is ":" (slice cs 16 1))
      then None
      else
        match parse_digits (slice cs 11 2), parse_digits (slice cs 14 2),
              parse_digits (slice cs 17 2) with
        | Some hh, Some mm, Some ss =>
            if (hh <=? 23) && (mm <=? 59) && (ss <=? 59)
            then Some (mk_timestamp y m d hh mm ss)
            else None
        | _, _, _ => None
        end
  | _, _, _ => None
  end.

(** The text [to_csv] writes for a timestamp: date, a blank, time of day,
    and the nine fractional digits when there is a fraction. *)
Definition format_timestamp (t : Timestamp) : string :=
  let secs := t / ns_per_second in
  let frac := t mod ns_per_second in
  let days := secs / 86400 in
  let sod := secs mod 86400 in
  let '(y, m, d) := civil_from_days days in
  let tail := if frac =? 0 then [] else "."%char :: pad_digits 9 frac [] in
  string_of_list_ascii
    (pad_digits 4 y
       ("-"%char :: pad_digits 2 m
          ("-"%char :: pad_digits 2 d
             (" "%char :: pad_digits 2 (sod / 3600)
                (":"%char :: pad_digits 2 (sod / 60 mod 60)
                   (":"%char :: pad_digits 2 (sod mod 60) tail)))))).

(* ================================================================== *)
(** ** Exceptions and results *)

Inductive exn : Type :=
| FileNotFoundError (path : string)
| PermissionError (path : string)
| KeyError (key : string)
| ValueError (text : string)
| EmptyDataError
| ParserError
| TypeError (what : string)
| OverflowError
| OperationalError (conn_id : string)
| UndefinedTable (relation : string)
| UndefinedColumn (column : string)
| UndefinedFunction (operator : string).

(** A pure computation that returns a value or raises. *)
Definition Result (A : Type) : Type := (exn + A)%type.

Definition rbind {A B : Type} (r : Result A) (k : A -> Result B) : Result B :=
  match r with
  | inl e => inl e
  | inr a => k a
  end.

Fixpoint rmap {A B : Type} (f : A -> Result B) (l : list A) : Result (list B) :=
  match l with
  | [] => inr []
  | a :: l' =>
      rbind (f a) (fun b => rbind (rmap f l') (fun bs => inr (b :: bs)))
  end.

(* ================================================================== *)
(** ** DataFrames

    A DataFrame is an ordered list of named, typed columns over a list of
    rows.  One cell type serves every column; [VNull] is the missing value
    of each dtype (None, NaN, NaT), the one [isnull()] reports. *)

Inductive dtype : Type :=
| int64 | float64 | bool_ | object | datetime64.

Inductive value : Type :=
| VNull
| VStr (s : string)
| VInt (z : Z)
| VFloat (f : F64.t)
| VBool (b : bool)
| VTime (t : Timestamp).

Record DataFrame : Type := mkDataFrame {
  df_columns : list (string * dtype);
  df_rows : list (list value)
}.

Definition isnull (v : value) : bool :=
  match v with
  | VNull => true
  | VFloat f => F64.is_nan f
  | _ => false
  end.

(** len(df) *)
Definition df_len (df : DataFrame) : nat := List.length (df_rows df).

(** list(df.columns) *)
Definition column_names (df : DataFrame) : list string :=
  map fst (df_columns df).

Fixpoint index_of (name : string) (names : list string) : option nat :=
  match names with
  | [] => None
  | n :: names' =>
      if String.eqb name n then Some O
      else option_map S (index_of name names')
  end.

Definition cell (row : list value) (i : nat) : value := nth i row VNull.

(** df[name]: the cells of one column, top to bottom. *)
Definition getitem (df : DataFrame) (name : string) : Result (list value) :=
  match index_of name (column_names df) with
  | None => inl (KeyError name)
  | Some i => inr (map (fun row => cell row i) (df_rows df))
  end.

Fixpoint replace_nth {A : Type} (i : nat) (x : A) (l : list A) : list A :=
  match l, i with
  | [], _ => []
  | _ :: l', O => x :: l'
  | a :: l', S i' => a :: replace_nth i' x l'
  end.

Fixpoint zip_with {A B C : Type} (f : A -> B -> C)
  (la : list A) (lb : list B) : list C :=
  match la, lb with
  | a :: la', b :: lb' => f a b :: zip_with f la' lb'
  | _, _ => []
  end.

(** df[name] = series: overwrite the column when it exists, append it as
    the last column otherwise. *)
Definition setitem (df : DataFrame) (name : string) (dt : dtype)
  (series : list value) : DataFrame :=
  match index_of name (column_names df) with
  | Some i =>
      {| df_columns := replace_nth i (name, dt) (df_columns df);
         df_rows := zip_with (fun row v => replace_nth i v row)
                      (df_rows df) series |}
  | None =>
      {| df_columns := df_columns df ++ [(name, dt)];
         df_rows := zip_with (fun row v => row ++ [v]) (df_rows df) series |}
  end.

(** df.isnull().sum(), kept where the count is positive. *)
Definition missing_data (df : DataFrame) : list (string * nat) :=
  let count name :=
    match getitem df name with
    | inr cells => List.length (filter isnull cells)
    | inl _ => O
    end in
  filter (fun p => (0 <? snd p)%nat)
    (map (fun name => (name, count name)) (column_names df)).

(* ------------------------------------------------------------------ *)
(** *** The derived duration (lines 59-63) *)

Definition int64_min : Z := - 2 ^ 63.
Definition int64_max : Z := 2 ^ 63 - 1.

(** pd.to_datetime on one cell.  A number is a count of nanoseconds since
    the epoch, a float by its integer part; a text goes through
    [parse_datetime]; a boolean is refused. *)
Definition to_datetime_cell (v : value) : Result (option Timestamp) :=
  match v with
  | VNull => inr None
  | VTime t => inr (Some t)
  | VInt z => inr (Some z)
  | VStr s =>
      match parse_datetime s with
      | Some t => inr (Some t)
      | None => inl (ValueError s)
      end
  | VFloat f =>
      if F64.is_nan f then inr None
      else
        match F64.trunc f with
        | Some z =>
            if (int64_min <? z) && (z <=? int64_max) then inr (Some z)
            else inl (ValueError "Out of bounds nanosecond timestamp")
        | None => inl (ValueError "Out of bounds nanosecond timestamp")
        end
  | VBool _ => inl (TypeError "bool")
  end.

Definition to_datetime (series : list value)
  : Result (list (option Timestamp)) :=
  rmap to_datetime_cell series.

(** Subtraction of two datetime64[ns] cells: NaT when either side is NaT,
    an overflow error when the difference leaves the int64 range of a
    timedelta64[ns] (its least value is the NaT marker). *)
Definition sub_datetime (a b : option Timestamp) : Result (option Timedelta) :=
  match a, b with
  | Some x, Some y =>
      if (int64_min <? x - y) && (x - y <=? int64_max)
      then inr (Some (x - y)) else inl OverflowError
  | _, _ => inr None
  end.

Fixpoint sub_datetimes (la lb : list (option Timestamp))
  : Result (list (option Timedelta)) :=
  match la, lb with
  | a :: la', b :: lb' =>
      rbind (sub_datetime a b) (fun d =>
      rbind (sub_datetimes la' lb') (fun ds => inr (d :: ds)))
  | _, _ => inr []
  end.

(** Series.dt.total_seconds() on one element, as pandas 2 computes it: the
    int64 nanosecond count divided, in float64, by the number of
    nanoseconds per second.  NaT gives NaN ([None]). *)
Definition total_seconds (d : option Timedelta) : option F64.t :=
  option_map (fun ns => F64.div (F64.of_Z ns) (F64.of_Z ns_per_second)) d.

(** The same before pandas 2.0: the float64 product [1e-9 * ns]. *)
Definition total_seconds_legacy (d : option Timedelta) : option F64.t :=
  option_map
    (fun ns => F64.mul (F64.div (F64.of_Z 1) (F64.of_Z ns_per_second))
                 (F64.of_Z ns)) d.

(** [series / 3600] on one float64 element. *)
Definition truediv_3600 (s : option F64.t) : value :=
  match s with
  | Some f => VFloat (F64.div f (F64.of_Z 3600))
  | None => VNull
  end.

(** The float64 number of hours of a timedelta. *)
Definition hours_of_timedelta (ns : Timedelta) : F64.t :=
  F64.div (F64.div (F64.of_Z ns) (F64.of_Z ns_per_second)) (F64.of_Z 3600).

(** The right-hand side of lines 60-63.  Python evaluates the left operand
    of the subtraction, with its column lookup, before the right one. *)
Definition resolution_time_hours (df : DataFrame) : Result (list value) :=
  rbind (getitem df "inc_resolved_at") (fun resolved_col =>
  rbind (to_datetime resolved_col) (fun resolved =>
  rbind (getitem df "inc_sys_created_on") (fun created_col =>
  rbind (to_datetime created_col) (fun created =>
  rbind (sub_datetimes resolved created) (fun deltas =>
  inr (map (fun d => truediv_3600 (total_seconds d)) deltas)))))).

(* ================================================================== *)
(** ** The intermediate CSV file

    A file is a header line and records of fields.  A field is kept as the
    token the reader's tokenizer makes of its characters: a numeric literal
    is identified with the number it denotes and its spelling is not
    modelled. *)

Inductive csv_field : Type :=
| FNa
| FInt (z : Z)
| FFloat (f : F64.t)
| FBool (b : bool)
| FStr (s : string).

Record CsvFile : Type := mkCsvFile {
  csv_header : list string;
  csv_records : list (list csv_field)
}.

(** The spellings read_csv takes for a missing value by default. *)
Definition na_values : list string :=
  [""; "#N/A"; "#N/A N/A"; "#NA"; "-1.#IND"; "-1.#QNAN"; "-NaN"; "-nan";
   "1.#IND"; "1.#QNAN"; "<NA>"; "N/A"; "NA"; "NULL"; "NaN"; "None"; "n/a";
   "nan"; "null"].

Definition string_mem (s : string) (l : list string) : bool :=
  existsb (String.eqb s) l.

(** An optionally signed run of digits. *)
Definition parse_int (s : string) : option Z :=
  match list_ascii_of_string s with
  | "-"%char :: cs => option_map Z.opp (parse_digits cs)
  | "+"%char :: cs => parse_digits cs
  | cs => parse_digits cs
  end.

Fixpoint split_at_dot (cs : list ascii) : list ascii * option (list ascii) :=
  match cs with
  | [] => ([], None)
  | c :: cs' =>
      if Ascii.eqb c "."%char then ([], Some cs')
      else let '(ip, fp) := split_at_dot cs' in (c :: ip, fp)
  end.

(** The float64 nearest to [m / 10^k] (ties to even): the quotient is taken
    with 64 bits to spare and a sticky bit for the remainder. *)
Definition f64_of_decimal (negative : bool) (m : Z) (k : nat) : F64.t :=
  if m =? 0 then S754_zero negative
  else
    let den := 10 ^ Z.of_nat k in
    let s := 64 + Z.log2 den + 1 in
    let q := (m * 2 ^ s) / den in
    let sticky := if (m * 2 ^ s) mod den =? 0 then 0 else 1 in
    let r := binary_normalize F64.prec F64.emax (2 * q + sticky) (- (s + 1))
               false in
    if negative then SFopp r else r.

(** A plain decimal literal with a point: [digits.digits], either side may
    be empty but not both. *)
Definition parse_decimal (s : string) : option F64.t :=
  let '(negative, cs) :=
    match list_ascii_of_string s with
    | "-"%char :: cs => (true, cs)
    | "+"%char :: cs => (false, cs)
    | cs => (false, cs)
    end in
  match split_at_dot cs with
  | (ip, Some fp) =>
      match ip ++ fp with
      | [] => None
      | ds =>
          option_map (fun m => f64_of_decimal negative m (List.length fp))
            (digits_value 0 ds)
      end
  | (_, None) => None
  end.

(** The token of the characters of a text.  Integers outside int64 and
    literals with an exponent are left as text. *)
Definition lex_text (s : string) : csv_field :=
  if string_mem s na_values then FNa
  else
    match parse_int s with
    | Some z =>
        if (- 2 ^ 63 <=? z) && (z <? 2 ^ 63) then FInt z else FStr s
    | None =>
        if string_mem s ["True"; "TRUE"; "true"] then FBool true
        else if string_mem s ["False"; "FALSE"; "false"] then FBool false
        else
          match parse_decimal s with
          | Some f => FFloat f
          | None => FStr s
          end
    end.

(** What to_csv writes for one cell. *)
Definition field_of_value (v : value) : csv_field :=
  match v with
  | VNull => FNa
  | VStr s => lex_text s
  | VInt z => FInt z
  | VFloat f => if F64.is_nan f then FNa else FFloat f
  | VBool b => FBool b
  | VTime t => FStr (format_timestamp t)
  end.

(** df.to_csv(path, index=False): the column names, then one record per
    row. *)
Definition to_csv (df : DataFrame) : CsvFile :=
  {| csv_header := column_names df;
     csv_records := map (map field_of_value) (df_rows df) |}.

(** *** pd.read_csv with default arguments *)

Definition is_int_field (f : csv_field) : bool :=
  match f with FInt _ => true | _ => false end.

Definition is_number_or_na (f : csv_field) : bool :=
  match f with FInt _ | FFloat _ | FNa => true | _ => false end.

Definition is_bool_field (f : csv_field) : bool :=
  match f with FBool _ => true | _ => false end.

Definition is_bool_or_na (f : csv_field) : bool :=
  match f with FBool _ | FNa => true | _ => false end.

(** The dtype read_csv gives a column.  No column is ever read as
    datetime64: the call passes no [parse_dates]. *)
Definition infer_dtype (fields : list csv_field) : dtype :=
  match fields with
  | [] => object
  | _ =>
      if forallb is_int_field fields then int64
      else if forallb is_number_or_na fields then float64
      else if forallb is_bool_field fields then bool_
      else object
  end.

(** The cell of a field in a column of dtype [dt].  In an object column a
    boolean stays a boolean when the column holds booleans and blanks only;
    a float literal in an object column is kept as its number. *)
Definition value_of_field (dt : dtype) (bools_only : bool) (f : csv_field)
  : value :=
  match dt, f with
  | _, FNa => VNull
  | int64, FInt z => VInt z
  | float64, FInt z => VFloat (F64.of_Z z)
  | _, FFloat x => if F64.is_nan x then VNull else VFloat x
  | bool_, FBool b => VBool b
  | _, FBool b =>
      if bools_only then VBool b else VStr (if b then "True" else "False")
  | _, FInt z => VStr (string_of_Z z)
  | _, FStr s => VStr s
  end.

Definition csv_column (records : list (list csv_field)) (i : nat)
  : list csv_field :=
  map (fun r => nth i r FNa) records.

(** The frame of a header and records that fit it: each column gets the
    dtype inferred from its fields, a short record is filled up with
    blanks. *)
Definition frame_of_records (header : list string)
  (records : list (list csv_field)) : DataFrame :=
  let kinds :=
    map (fun i =>
           let col := csv_column records i in
           (i, infer_dtype col, forallb is_bool_or_na col))
      (seq 0 (List.length header)) in
  {| df_columns := combine header (map (fun k => snd (fst k)) kinds);
     df_rows :=
       map (fun r =>
              map (fun k =>
                     value_of_field (snd (fst k)) (snd k)
                       (nth (fst (fst k)) r FNa))
                kinds)
         records |}.

(** The file is rejected when it has no header, or when a record has more
    fields than the header. *)
Definition read_csv (file : CsvFile) : Result DataFrame :=
  let header := csv_header file in
  let records := csv_records file in
  match header with
  | [] => inl EmptyDataError
  | _ =>
      if existsb (fun r => (List.length header <? List.length r)%nat) records
      then inl ParserError
      else inr (frame_of_records header records)
  end.

(* ================================================================== *)
(** ** The PostgreSQL side *)

Inductive sqltype : Type :=
| BIGINT | DOUBLE_PRECISION | BOOLEAN | TEXT | TIMESTAMP | NUMERIC.

(** A table: its columns in order and its rows.  A cell is a [value];
    [VNull] is SQL NULL. *)
Record Table : Type := mkTable {
  tbl_columns : list (string * sqltype);
  tbl_rows : list (list value)
}.

Definition staging_table_name : string := "itsm_raw_tickets".

(** The column list of the CREATE TABLE statement (lines 142-159). *)
Definition staging_schema : list (string * sqltype) :=
  [("inc_business_service", TEXT);
   ("inc_category", TEXT);
   ("inc_number", TEXT);
   ("inc_priority", TEXT);
   ("inc_sla_due", TEXT);
   ("inc_sys_created_on", TIMESTAMP);
   ("inc_resolved_at", TIMESTAMP);
   ("inc_assigned_to", TEXT);
   ("inc_state", TEXT);
   ("inc_cmdb_ci", TEXT);
   ("inc_caller_id", TEXT);
   ("inc_short_description", TEXT);
   ("inc_assignment_group", TEXT);
   ("inc_close_code", TEXT);
   ("inc_close_notes", TEXT);
   ("resolution_time_hours", NUMERIC)].

(** CREATE TABLE IF NOT EXISTS itsm_raw_tickets (...): nothing happens to
    a table that is there. *)
Definition create_table_if_not_exists (t : option Table) : option Table :=
  match t with
  | Some existing => Some existing
  | None => Some {| tbl_columns := staging_schema; tbl_rows := [] |}
  end.

(** *** DataFrame.to_sql *)

Definition is_vbool (v : value) : bool :=
  match v with VBool _ => true | _ => false end.
Definition is_vint (v : value) : bool :=
  match v with VInt _ => true | _ => false end.
Definition is_vfloat (v : value) : bool :=
  match v with VFloat _ => true | _ => false end.
Definition is_vtime (v : value) : bool :=
  match v with VTime _ => true | _ => false end.

(** The column type to_sql declares.  A typed column maps by its dtype; an
    object column by the kind its non-missing cells share, text when they
    share none or there is none. *)
Definition sql_type_of_column (dt : dtype) (cells : list value) : sqltype :=
  match dt with
  | int64 => BIGINT
  | float64 => DOUBLE_PRECISION
  | bool_ => BOOLEAN
  | datetime64 => TIMESTAMP
  | object =>
      match filter (fun v => negb (isnull v)) cells with
      | [] => TEXT
      | present =>
          if forallb is_vbool present then BOOLEAN
          else if forallb is_vint present then BIGINT
          else if forallb is_vfloat present then DOUBLE_PRECISION
          else if forallb is_vtime present then TIMESTAMP
          else TEXT
      end
  end.

(** A missing cell of any dtype (None, NaN, NaT) is inserted as NULL. *)
Definition sql_value (v : value) : value :=
  if isnull v then VNull else v.

(** The table to_sql creates for a frame and fills with its rows. *)
Definition table_of_frame (df : DataFrame) : Table :=
  let cols := df_columns df in
  {| tbl_columns :=
       map (fun k =>
              (fst (snd k),
               sql_type_of_column (snd (snd k))
                 (map (fun row => cell row (fst k)) (df_rows df))))
         (combine (seq 0 (List.length cols)) cols);
     tbl_rows := map (map sql_value) (df_rows df) |}.

Inductive if_exists : Type := Fail | Replace | Append.

(** df.to_sql(name, engine, if_exists=mode, index=False) on the state of
    the named table.  With [Replace] an existing table is dropped and a new
    one is created from the frame alone; with [Append] the rows are added
    to the table that is there. *)
Definition to_sql (df : DataFrame) (mode : if_exists) (old : option Table)
  : Result (option Table) :=
  match old, mode with
  | None, _ => inr (Some (table_of_frame df))
  | Some _, Fail => inl (ValueError "Table 'itsm_raw_tickets' already exists.")
  | Some _, Replace => inr (Some (table_of_frame df))
  | Some t, Append =>
      match
        find (fun name => negb (string_mem name (map fst (tbl_columns t))))
          (column_names df)
      with
      | Some name => inl (UndefinedColumn name)
      | None =>
          inr (Some {| tbl_columns := tbl_columns t;
                       tbl_rows := tbl_rows t
                                   ++ tbl_rows (table_of_frame df) |})
      end
  end.

(* ------------------------------------------------------------------ *)
(** *** The two quality queries *)

(** SQL truth values: [None] is NULL (unknown). *)
Definition sql_bool : Type := option bool.

Definition sql_or (a b : sql_bool) : sql_bool :=
  match a, b with
  | Some true, _ | _, Some true => Some true
  | Some false, Some false => Some false
  | _, _ => None
  end.

(** A WHERE clause keeps the rows on which it is true. *)
Definition sql_is_true (b : sql_bool) : bool :=
  match b with Some true => true | _ => false end.

(** The order of a numeric cell against an integer literal.  In a float8
    column PostgreSQL places NaN above every number.  NULL has no order. *)
Definition pg_compare (v : value) (k : Z) : option comparison :=
  match v with
  | VInt z => Some (z ?= k)
  | VFloat f => if F64.is_nan f then Some Gt else SFcompare f (F64.of_Z k)
  | _ => None
  end.

Definition sql_gt (v : value) (k : Z) : sql_bool :=
  option_map (fun c => match c with Gt => true | _ => false end)
    (pg_compare v k).

Definition sql_lt (v : value) (k : Z) : sql_bool :=
  option_map (fun c => match c with Lt => true | _ => false end)
    (pg_compare v k).

Definition is_numeric_type (ty : sqltype) : bool :=
  match ty with
  | BIGINT | DOUBLE_PRECISION | NUMERIC => true
  | _ => false
  end.

Fixpoint lookup_column (name : string) (cols : list (string * sqltype))
  : option (nat * sqltype) :=
  match cols with
  | [] => None
  | (n, ty) :: cols' =>
      if String.eqb name n then Some (O, ty)
      else option_map (fun p => (S (fst p), snd p)) (lookup_column name cols')
  end.

(** WHERE resolution_time_hours > 720 OR resolution_time_hours < 0 *)
Definition outlier_where (v : value) : sql_bool :=
  sql_or (sql_gt v 720) (sql_lt v 0).

(** SELECT COUNT( * ) FROM itsm_raw_tickets
    WHERE resolution_time_hours > 720 OR resolution_time_hours < 0

    The statement is rejected when the table or the column is missing, and
    when the column's type has no order against an integer. *)
Definition outlier_query (db : option Table) : Result nat :=
  match db with
  | None => inl (UndefinedTable staging_table_name)
  | Some t =>
      match lookup_column "resolution_time_hours" (tbl_columns t) with
      | None => inl (UndefinedColumn "resolution_time_hours")
      | Some (i, ty) =>
          if is_numeric_type ty
          then inr (List.length
                      (filter (fun row => sql_is_true (outlier_where (cell row i)))
                         (tbl_rows t)))
          else inl (UndefinedFunction "> integer")
      end
  end.

Definition f64_eq_dec (x y : F64.t) : {x = y} + {x <> y}.
Proof.
  unfold F64.t in *.
  decide equality; auto using Bool.bool_dec, Pos.eq_dec, Z.eq_dec.
Defined.

Definition value_eq_dec (x y : value) : {x = y} + {x <> y}.
Proof.
  decide equality;
    auto using string_dec, Z.eq_dec, Bool.bool_dec, f64_eq_dec.
Defined.

(** The key a cell is grouped under: NULLs form one group, and the two
    float zeros are the same number. *)
Definition group_key (v : value) : value :=
  match v with
  | VFloat (S754_zero _) => VFloat (S754_zero false)
  | _ => v
  end.

(** One more row for the group of [k]. *)
Fixpoint bump (k : value) (groups : list (value * nat))
  : list (value * nat) :=
  match groups with
  | [] => [(k, 1%nat)]
  | (k', n) :: groups' =>
      if value_eq_dec k k' then (k', S n) :: groups'
      else (k', n) :: bump k groups'
  end.

(** SELECT key, COUNT( * ) ... GROUP BY key *)
Definition group_by_count (keys : list value) : list (value * nat) :=
  fold_left (fun groups k => bump k groups) keys [].

(** SELECT COUNT( * ) FROM
      (SELECT inc_number, COUNT( * ) FROM itsm_raw_tickets
       GROUP BY inc_number HAVING COUNT( * ) > 1) t *)
Definition duplicate_query (db : option Table) : Result nat :=
  match db with
  | None => inl (UndefinedTable staging_table_name)
  | Some t =>
      match lookup_column "inc_number" (tbl_columns t) with
      | None => inl (UndefinedColumn "inc_number")
      | Some (i, _) =>
          let keys := map (fun row => group_key (cell row i)) (tbl_rows t) in
          inr (List.length
                 (filter (fun g => (1 <? snd g)%nat) (group_by_count keys)))
      end
  end.

(* ================================================================== *)
(** ** The world the tasks run in *)

Inductive level : Type := INFO | WARNING | ERROR.

(** The messages of the DAG file, each with the values its f-string
    interpolates. *)
Inductive message : Type :=
| Extracted (records : nat)
| Columns (names : list string)
| MissingData (counts : list (string * nat))
| SavedToStaging
| Loaded (records : nat)
| FoundDuplicates (count : nat)
| FoundOutliers (count : nat)
| ChecksCompleted
| ErrorInExtraction (e : exn)
| ErrorInLoading (e : exn)
| ErrorInQualityChecks (e : exn).

Definition source_path : string :=
  "/opt/airflow/data/Sample-Data-file-for-Analysis_Jan-25-1.xlsx".
Definition staging_path : string := "/tmp/itsm_staging.csv".
Definition conn_id : string := "postgres_default".

Record World : Type := mkWorld {
  (** sheet 'Raw Data' of the source workbook; [None] when it cannot be read *)
  source_sheet : option DataFrame;
  (** whether /tmp/itsm_staging.csv can be written *)
  staging_writable : bool;
  (** the content of /tmp/itsm_staging.csv; [None] when there is no file *)
  staging_csv : option CsvFile;
  (** whether the connection postgres_default can be opened *)
  pg_up : bool;
  (** table itsm_raw_tickets; [None] when it does not exist *)
  itsm_raw_tickets : option Table;
  (** the log, oldest record first *)
  log : list (level * message)
}.

Definition with_staging_csv (f : CsvFile) (w : World) : World :=
  {| source_sheet := source_sheet w;
     staging_writable := staging_writable w;
     staging_csv := Some f;
     pg_up := pg_up w;
     itsm_raw_tickets := itsm_raw_tickets w;
     log := log w |}.

Definition with_table (t : option Table) (w : World) : World :=
  {| source_sheet := source_sheet w;
     staging_writable := staging_writable w;
     staging_csv := staging_csv w;
     pg_up := pg_up w;
     itsm_raw_tickets := t;
     log := log w |}.

Definition with_log (l : list (level * message)) (w : World) : World :=
  {| source_sheet := source_sheet w;
     staging_writable := staging_writable w;
     staging_csv := staging_csv w;
     pg_up := pg_up w;
     itsm_raw_tickets := itsm_raw_tickets w;
     log := l |}.

(** *** Tasks: state and exceptions *)

Definition Task (A : Type) : Type := World -> Result A * World.

Definition ret {A : Type} (a : A) : Task A := fun w => (inr a, w).

Definition raise {A : Type} (e : exn) : Task A := fun w => (inl e, w).

Definition bind {A B : Type} (m : Task A) (k : A -> Task B) : Task B :=
  fun w =>
    match m w with
    | (inl e, w') => (inl e, w')
    | (inr a, w') => k a w'
    end.

(** try: [body] except Exception as e: [handler e] *)
Definition try_except {A : Type} (body : Task A) (handler : exn -> Task A)
  : Task A :=
  fun w =>
    match body w with
    | (inl e, w') => handler e w'
    | (inr a, w') => (inr a, w')
    end.

Definition lift {A : Type} (r : Result A) : Task A := fun w => (r, w).

Declare Scope task_scope.
Delimit Scope task_scope with task.
Notation "x <- m ;; k" := (bind m (fun x => k))
  (at level 61, m at next level, right associativity) : task_scope.
Notation "m ;; k" := (bind m (fun _ => k))
  (at level 61, right associativity) : task_scope.

Definition logging (lv : level) (m : message) : Task unit :=
  fun w => (inr tt, with_log (log w ++ [(lv, m)]) w).

(** if [c]: [m] *)
Definition when (c : bool) (m : Task unit) : Task unit :=
  if c then m else ret tt.

(** *** The library calls, against the world *)

(** pd.read_excel(path, sheet_name='Raw Data') *)
Definition pd_read_excel : Task DataFrame :=
  fun w =>
    match source_sheet w with
    | Some df => (inr df, w)
    | None => (inl (FileNotFoundError source_path), w)
    end.

(** df.to_csv('/tmp/itsm_staging.csv', index=False) *)
Definition df_to_csv (df : DataFrame) : Task unit :=
  fun w =>
    if staging_writable w then (inr tt, with_staging_csv (to_csv df) w)
    else (inl (PermissionError staging_path), w).

(** pd.read_csv('/tmp/itsm_staging.csv') *)
Definition pd_read_csv : Task DataFrame :=
  fun w =>
    match staging_csv w with
    | Some file => (read_csv file, w)
    | None => (inl (FileNotFoundError staging_path), w)
    end.

(** df.to_sql('itsm_raw_tickets', engine, if_exists=mode, index=False) *)
Definition df_to_sql (df : DataFrame) (mode : if_exists) : Task unit :=
  fun w =>
    if pg_up w then
      match to_sql df mode (itsm_raw_tickets w) with
      | inr t => (inr tt, with_table t w)
      | inl e => (inl e, w)
      end
    else (inl (OperationalError conn_id), w).

(** postgres_hook.get_first(sql)[0] for a query that returns one count. *)
Definition get_first (query : option Table -> Result nat) : Task nat :=
  fun w =>
    if pg_up w then (query (itsm_raw_tickets w), w)
    else (inl (OperationalError conn_id), w).

(** A PostgresOperator running one statement that rewrites the table. *)
Definition postgres_operator (statement : option Table -> option Table)
  : Task unit :=
  fun w =>
    if pg_up w then (inr tt, with_table (statement (itsm_raw_tickets w)) w)
    else (inl (OperationalError conn_id), w).

(* ================================================================== *)
(** ** The tasks of the DAG *)

Local Open Scope task_scope.

(** The body of the [try] of extract_itsm_data (lines 47-67). *)
Definition extract_body : Task unit :=
  df <- pd_read_excel ;;
  logging INFO (Extracted (df_len df)) ;;
  logging INFO (Columns (column_names df)) ;;
  logging INFO (MissingData (missing_data df)) ;;
  hours <- lift (resolution_time_hours df) ;;
  df_to_csv (setitem df "resolution_time_hours" float64 hours) ;;
  logging INFO SavedToStaging.

Definition extract_itsm_data : Task unit :=
  try_except extract_body
    (fun e => logging ERROR (ErrorInExtraction e) ;; raise e).

(** The body of the [try] of load_to_postgres (lines 78-88). *)
Definition load_body : Task unit :=
  df <- pd_read_csv ;;
  df_to_sql df Replace ;;
  logging INFO (Loaded (df_len df)).

Definition load_to_postgres : Task unit :=
  try_except load_body
    (fun e => logging ERROR (ErrorInLoading e) ;; raise e).

(** The body of the [try] of run_data_quality_checks (lines 99-125). *)
Definition quality_body : Task unit :=
  duplicate_check <- get_first duplicate_query ;;
  when (0 <? duplicate_check)%nat
    (logging WARNING (FoundDuplicates duplicate_check)) ;;
  outlier_check <- get_first outlier_query ;;
  when (0 <? outlier_check)%nat
    (logging WARNING (FoundOutliers outlier_check)) ;;
  logging INFO ChecksCompleted.

Definition run_data_quality_checks : Task unit :=
  try_except quality_body
    (fun e => logging ERROR (ErrorInQualityChecks e) ;; raise e).

(** create_staging_table: the operator of lines 138-162. *)
Definition create_staging_table : Task unit :=
  postgres_operator create_table_if_not_exists.

Local Close Scope task_scope.

(* ================================================================== *)
(** ** The dependency graph (lines 131-190) *)

Inductive operator : Type :=
| extract_data_task
| create_staging_table_task
| load_data_task
| data_quality_task
| run_dbt_task
| run_dbt_tests_task.

Definition operator_eqb (a b : operator) : bool :=
  match a, b with
  | extract_data_task, extract_data_task
  | create_staging_table_task, create_staging_table_task
  | load_data_task, load_data_task
  | data_quality_task, data_quality_task
  | run_dbt_task, run_dbt_task
  | run_dbt_tests_task, run_dbt_tests_task => true
  | _, _ => false
  end.

Definition all_tasks : list operator :=
  [extract_data_task; create_staging_table_task; load_data_task;
   data_quality_task; run_dbt_task; run_dbt_tests_task].

(** The registered dependencies: (upstream, downstream) pairs. *)
Definition Edges : Type := list (operator * operator).

Definition has_edge (a b : operator) (es : Edges) : bool :=
  existsb (fun e => operator_eqb a (fst e) && operator_eqb b (snd e)) es.

(** [a >> b]: register [b] downstream of [a]; the value of the expression
    is [b], which is what lets the operator chain. *)
Definition rshift (a b : operator) (es : Edges) : operator * Edges :=
  (b, if has_edge a b es then es else es ++ [(a, b)]).

(** Lines 189 and 190, left to right. *)
Definition dag_edges : Edges :=
  let es := [] in
  let '(t, es) := rshift extract_data_task create_staging_table_task es in
  let '(t, es) := rshift t load_data_task es in
  let '(_, es) := rshift t data_quality_task es in
  let '(t, es) := rshift data_quality_task run_dbt_task es in
  let '(_, es) := rshift t run_dbt_tests_task es in
  es.

Definition upstream (t : operator) : list operator :=
  map fst (filter (fun e => operator_eqb t (snd e)) dag_edges).

Definition downstream (t : operator) : list operator :=
  map snd (filter (fun e => operator_eqb t (fst e)) dag_edges).

Definition mem_task (t : operator) (l : list operator) : bool :=
  existsb (operator_eqb t) l.

(** The scheduler's rule for a task with the default trigger rule: it may
    start once every upstream task has succeeded (and it has not run yet
    in this DAG run). *)
Definition can_run (succeeded : list operator) (t : operator) : bool :=
  negb (mem_task t succeeded)
  && forallb (fun u => mem_task u succeeded) (upstream t).

(** One step of a DAG run: a runnable task runs and succeeds.  The state is
    the list of the tasks that have succeeded, in the order they did. *)
Inductive run_step : list operator -> list operator -> Prop :=
| run_task succeeded t :
    can_run succeeded t = true ->
    run_step succeeded (succeeded ++ [t]).

Inductive reachable : list operator -> Prop :=
| reach_start : reachable []
| reach_step s s' : reachable s -> run_step s s' -> reachable s'.

(* ================================================================== *)
(** * The vocabulary of the properties

    The notions the statements below are written with, and the sample
    data they are tried on. *)

(** ** Ranges *)

(** The integers from [lo], [n] of them. *)
Definition Z_range (lo : Z) (n : nat) : list Z :=
  map (fun k => lo + Z.of_nat k) (seq 0 n).

(** ** The derived duration *)

(** The cell of a row under a column name. *)
Definition column_cell (df : DataFrame) (row : list value) (name : string)
  : option value :=
  option_map (cell row) (index_of name (column_names df)).

(** The duration in hours as a real number. *)
Definition exact_hours (created resolved : Timestamp) : Q :=
  ((resolved - created) # Z.to_pos ns_per_hour)%Q.

(** The float [f] denotes exactly the rational [q]. *)
Definition denotes (f : F64.t) (q : Q) : Prop :=
  exists q', F64.to_Q f = Some q' /\ (q' == q)%Q.

Definition denotesb (f : F64.t) (q : Q) : bool :=
  match F64.to_Q f with
  | Some q' => Qeq_bool q' q
  | None => false
  end.

Definition whole_hours_exact (h : Z) : bool :=
  (if f64_eq_dec (hours_of_timedelta (h * ns_per_hour)) (F64.of_Z h)
   then true else false)
  && denotesb (F64.of_Z h) (h # 1).

(** The sheet of the documented example: created 2024-01-01T00:00:00,
    resolved 2024-01-02T00:00:00. *)
Definition one_day_sheet : DataFrame :=
  {| df_columns := [("inc_number", object); ("inc_sys_created_on", object);
                    ("inc_resolved_at", object)];
     df_rows := [[VStr "INC001"; VStr "2024-01-01T00:00:00";
                  VStr "2024-01-02T00:00:00"]] |}.

(** One second between creation and resolution. *)
Definition one_second_sheet : DataFrame :=
  {| df_columns := [("inc_number", object); ("inc_sys_created_on", object);
                    ("inc_resolved_at", object)];
     df_rows := [[VStr "INC002"; VStr "2024-01-01T00:00:00";
                  VStr "2024-01-01T00:00:01"]] |}.

(** ** The Loader *)

Definition row_count (t : option Table) : nat :=
  match t with
  | Some t => List.length (tbl_rows t)
  | None => O
  end.

(** A staging file with one duplicated incident and a blank duration, and a
    world in which the table already holds a row. *)
Definition sample_csv : CsvFile :=
  {| csv_header := ["inc_number"; "inc_sys_created_on"; "inc_resolved_at";
                    "resolution_time_hours"];
     csv_records :=
       [[FStr "INC001"; FStr "2024-01-01 00:00:00";
         FStr "2024-01-02 00:00:00"; FFloat (F64.of_Z 24)];
        [FStr "INC001"; FStr "2024-01-01 00:00:00"; FNa; FNa];
        [FStr "INC003"; FStr "2024-01-01 00:00:00";
         FStr "2024-03-01 00:00:00"; FFloat (F64.of_Z 1440)]] |}.

Definition sample_world : World :=
  {| source_sheet := None;
     staging_writable := true;
     staging_csv := Some sample_csv;
     pg_up := true;
     itsm_raw_tickets :=
       Some {| tbl_columns := staging_schema;
               tbl_rows := [map (fun _ => VNull) staging_schema] |};
     log := [] |}.


(** ** The quality queries *)

(** A number below (above) an integer, in the order of its column; no
    order relates NULL to anything. *)
Definition below (v : value) (k : Z) : Prop := pg_compare v k = Some Lt.
Definition above (v : value) (k : Z) : Prop := pg_compare v k = Some Gt.

(** A duration that is negative or exceeds 720. *)
Definition outlier (v : value) : Prop := below v 0 \/ above v 720.

Definition outlier_dec (v : value) : {outlier v} + {~ outlier v}.
Proof.
  unfold outlier, below, above.
  destruct (pg_compare v 0) as [[| |]|];
    try (left; left; reflexivity);
    (destruct (pg_compare v 720) as [[| |]|];
     try (left; right; reflexivity);
     right; intros [H|H]; discriminate).
Defined.

(** The rows a reader of the table would point at. *)
Definition outlier_rows (t : Table) (i : nat) : list (list value) :=
  filter (fun row => if outlier_dec (cell row i) then true else false)
    (tbl_rows t).





(** ** The Quality Checker as a task *)

(** The first error a run of the checker meets, if any: the connection,
    then the duplicate query, then the outlier query. *)
Definition quality_failure (w : World) : option exn :=
  if pg_up w then
    match duplicate_query (itsm_raw_tickets w) with
    | inl e => Some e
    | inr _ =>
        match outlier_query (itsm_raw_tickets w) with
        | inl e => Some e
        | inr _ => None
        end
    end
  else Some (OperationalError conn_id).

Definition duplicate_warning (d : nat) : list (level * message) :=
  if (0 <? d)%nat then [(WARNING, FoundDuplicates d)] else [].

Definition outlier_warning (o : nat) : list (level * message) :=
  if (0 <? o)%nat then [(WARNING, FoundOutliers o)] else [].

(** The warning already in the log when a later step fails. *)
Definition warned_before_failure (w : World) : list (level * message) :=
  if pg_up w then
    match duplicate_query (itsm_raw_tickets w) with
    | inr d => duplicate_warning d
    | inl _ => []
    end
  else [].

(** The records a run adds to the log. *)
Definition new_records (before after : World) : list (level * message) :=
  skipn (List.length (log before)) (log after).

(** The table the Loader makes of the sample file: INC001 twice, one
    duration of 24 hours, one missing, one of 1440 hours. *)
Definition loaded_world : World := snd (load_to_postgres sample_world).

Definition loaded_table : Table :=
  {| tbl_columns := [("inc_number", TEXT); ("inc_sys_created_on", TEXT);
                     ("inc_resolved_at", TEXT);
                     ("resolution_time_hours", DOUBLE_PRECISION)];
     tbl_rows :=
       [[VStr "INC001"; VStr "2024-01-01 00:00:00";
         VStr "2024-01-02 00:00:00"; VFloat (F64.of_Z 24)];
        [VStr "INC001"; VStr "2024-01-01 00:00:00"; VNull; VNull];
        [VStr "INC003"; VStr "2024-01-01 00:00:00";
         VStr "2024-03-01 00:00:00"; VFloat (F64.of_Z 1440)]] |}.

(** ** Rows without a duration *)

Definition is_sql_null (v : value) : bool :=
  match v with VNull => true | _ => false end.

(** The table without the rows whose cell in column [i] is NULL. *)
Definition without_nulls (t : Table) (i : nat) : Table :=
  {| tbl_columns := tbl_columns t;
     tbl_rows := filter (fun row => negb (is_sql_null (cell row i)))
                   (tbl_rows t) |}.

(** Two tickets that share a number and have no duration. *)
Definition unresolved_twins : Table :=
  {| tbl_columns := [("inc_number", TEXT);
                     ("resolution_time_hours", DOUBLE_PRECISION)];
     tbl_rows := [[VStr "INC001"; VNull]; [VStr "INC001"; VNull]] |}.

Definition twins_world : World :=
  {| source_sheet := None;
     staging_writable := true;
     staging_csv := None;
     pg_up := true;
     itsm_raw_tickets := Some unresolved_twins;
     log := [] |}.

(** ** Errors in the three Python tasks *)

(** The first step of the Extractor that fails, with its exception: reading
    the sheet, computing the duration, writing the staging file. *)
Definition extract_failure (w : World) : option exn :=
  match source_sheet w with
  | None => Some (FileNotFoundError source_path)
  | Some df =>
      match resolution_time_hours df with
      | inl e => Some e
      | inr _ =>
          if staging_writable w then None
          else Some (PermissionError staging_path)
      end
  end.

(** The same for the Loader: reading the staging file, parsing it, writing
    the table. *)
Definition load_failure (w : World) : option exn :=
  match staging_csv w with
  | None => Some (FileNotFoundError staging_path)
  | Some file =>
      match read_csv file with
      | inl e => Some e
      | inr _ =>
          if pg_up w then None else Some (OperationalError conn_id)
      end
  end.

(** What the Extractor has done when all its steps are through. *)
Definition extract_completed (w w' : World) : Prop :=
  exists df hours,
    source_sheet w = Some df
    /\ resolution_time_hours df = inr hours
    /\ w' = with_log
              (log w ++ [(INFO, Extracted (df_len df));
                         (INFO, Columns (column_names df));
                         (INFO, MissingData (missing_data df));
                         (INFO, SavedToStaging)])
              (with_staging_csv
                 (to_csv (setitem df "resolution_time_hours" float64 hours))
                 w).

Definition load_completed (w w' : World) : Prop :=
  exists file df,
    staging_csv w = Some file
    /\ read_csv file = inr df
    /\ w' = with_log (log w ++ [(INFO, Loaded (df_len df))])
              (with_table (Some (table_of_frame df)) w).

Definition quality_completed (w w' : World) : Prop :=
  exists d o,
    duplicate_query (itsm_raw_tickets w) = inr d
    /\ outlier_query (itsm_raw_tickets w) = inr o
    /\ w' = with_log (log w ++ duplicate_warning d ++ outlier_warning o
                      ++ [(INFO, ChecksCompleted)]) w.

(** A task with no outcome between the two: when a step fails, the task
    logs the exception of that step under its own message, as the last
    record, leaves file and table as they were, and raises that same
    exception; when no step fails, it returns with all its steps done. *)
Definition all_or_raise (task : Task unit) (failure : World -> option exn)
  (error_message : exn -> message) (completed : World -> World -> Prop)
  : Prop :=
  forall w,
    match failure w with
    | Some e =>
        exists earlier,
          task w
          = (inl e,
             with_log (log w ++ earlier ++ [(ERROR, error_message e)]) w)
    | None =>
        exists w', task w = (inr tt, w') /\ completed w w'
    end.

(** ** The dependency chain *)

(** The six tasks in the order the spec gives them. *)
Definition chain : list operator := all_tasks.

(** The task before [t] in the chain. *)
Definition predecessor (t : operator) : option operator :=
  match t with
  | extract_data_task => None
  | create_staging_table_task => Some extract_data_task
  | load_data_task => Some create_staging_table_task
  | data_quality_task => Some load_data_task
  | run_dbt_task => Some data_quality_task
  | run_dbt_tests_task => Some run_dbt_task
  end.

Definition successor (t : operator) : option operator :=
  match t with
  | extract_data_task => Some create_staging_table_task
  | create_staging_table_task => Some load_data_task
  | load_data_task => Some data_quality_task
  | data_quality_task => Some run_dbt_task
  | run_dbt_task => Some run_dbt_tests_task
  | run_dbt_tests_task => None
  end.

Definition option_list {A : Type} (o : option A) : list A :=
  match o with Some a => [a] | None => [] end.

(** ** The staging tasks end to end *)

(** A sheet of four tickets: one resolved after a day, one not resolved,
    one resolved after sixty days, one resolved a day before it was
    created; the first two share a number. *)
Definition sample_sheet : DataFrame :=
  {| df_columns := [("inc_number", object);
                    ("inc_sys_created_on", datetime64);
                    ("inc_resolved_at", datetime64)];
     df_rows :=
       [[VStr "INC001"; VTime (mk_timestamp 2024 1 1 0 0 0);
         VTime (mk_timestamp 2024 1 2 0 0 0)];
        [VStr "INC001"; VTime (mk_timestamp 2024 1 1 0 0 0); VNull];
        [VStr "INC003"; VTime (mk_timestamp 2024 1 1 0 0 0);
         VTime (mk_timestamp 2024 3 1 0 0 0)];
        [VStr "INC004"; VTime (mk_timestamp 2024 1 2 0 0 0);
         VTime (mk_timestamp 2024 1 1 0 0 0)]] |}.

Definition fresh_world : World :=
  {| source_sheet := Some sample_sheet;
     staging_writable := true;
     staging_csv := None;
     pg_up := true;
     itsm_raw_tickets := None;
     log := [] |}.

(** The four staging tasks in the order of the chain; a task that raises
    stops the run. *)
Definition staging_tasks : Task unit :=
  bind extract_itsm_data (fun _ =>
  bind create_staging_table (fun _ =>
  bind load_to_postgres (fun _ =>
  run_data_quality_checks))).

(** ** Further notions *)

(** The durations of the four tickets of the sample sheet. *)
Definition sample_hours : list value :=
  [VFloat (F64.of_Z 24); VNull; VFloat (F64.of_Z 1440);
   VFloat (F64.of_Z (-24))].

(** The three records the Extractor logs once the sheet is read. *)
Definition sheet_statistics (df : DataFrame) : list (level * message) :=
  [(INFO, Extracted (df_len df));
   (INFO, Columns (column_names df));
   (INFO, MissingData (missing_data df))].

(** A rectangular frame: every row has one cell per column. *)
Definition rectangular (df : DataFrame) : Prop :=
  Forall (fun row => List.length row = List.length (df_columns df))
    (df_rows df).

(** The state other than the log. *)
Definition same_data (w w' : World) : Prop :=
  source_sheet w' = source_sheet w
  /\ staging_writable w' = staging_writable w
  /\ staging_csv w' = staging_csv w
  /\ pg_up w' = pg_up w
  /\ itsm_raw_tickets w' = itsm_raw_tickets w.

Definition log_grows (w w' : World) : Prop :=
  exists added, log w' = log w ++ added.

(** The rows all the groups of a group table record together. *)
Fixpoint total_size (groups : list (value * nat)) : nat :=
  match groups with
  | [] => O
  | (_, n) :: groups' => (n + total_size groups')%nat
  end.

(** The frame the Loader reads back from the file the Extractor wrote for
    the sheet [df] with durations [hours]. *)
Definition reloaded_frame (df : DataFrame) (hours : list value) : DataFrame :=
  let df' := setitem df "resolution_time_hours" float64 hours in
  frame_of_records (column_names df')
    (map (map field_of_value) (df_rows df')).

(** A table whose duration came out as text, with a duplicated number. *)
Definition text_duration_world : World :=
  {| source_sheet := None;
     staging_writable := true;
     staging_csv := None;
     pg_up := true;
     itsm_raw_tickets :=
       Some {| tbl_columns := [("inc_number", TEXT);
                               ("resolution_time_hours", TEXT)];
               tbl_rows := [[VStr "INC001"; VStr "soon"];
                            [VStr "INC001"; VStr "later"]] |};
     log := [] |}.

(* ================================================================== *)
(** * Properties *)

(** ** The text of numbers and timestamps *)

Example parse_datetime_ex :
  parse_datetime "2024-01-02T00:00:00" = Some 1704153600000000000.
Proof. reflexivity. Qed.

Example format_timestamp_ex :
  format_timestamp 1704153600000000000 = "2024-01-02 00:00:00".
Proof. reflexivity. Qed.

Example string_of_Z_ex :
  map string_of_Z [0; 7; 10; 720; -45] = ["0"; "7"; "10"; "720"; "-45"].
Proof. reflexivity. Qed.

Example lex_text_ex :
  map lex_text ["INC001"; "42"; "-7"; ""; "N/A"; "true"; "2.5";
                "2024-01-02 00:00:00"]
  = [FStr "INC001"; FInt 42; FInt (-7); FNa; FNa; FBool true;
     FFloat (S754_finite false 5629499534213120 (-51));
     FStr "2024-01-02 00:00:00"].
Proof. reflexivity. Qed.

Example read_csv_ex :
  read_csv {| csv_header := ["inc_number"; "inc_priority"; "resolution_time_hours"];
              csv_records := [[FStr "INC001"; FInt 1; FFloat (F64.of_Z 24)];
                              [FStr "INC002"; FInt 3; FNa]] |}
  = inr {| df_columns := [("inc_number", object); ("inc_priority", int64);
                          ("resolution_time_hours", float64)];
           df_rows := [[VStr "INC001"; VInt 1; VFloat (F64.of_Z 24)];
                       [VStr "INC002"; VInt 3; VNull]] |}.
Proof. reflexivity. Qed.

(** ** Lists and results *)

Lemma rmap_nth_error {A B : Type} (f : A -> Result B) :
  forall (l : list A) (l' : list B) (i : nat) (a : A),
    rmap f l = inr l' ->
    nth_error l i = Some a ->
    exists b, f a = inr b /\ nth_error l' i = Some b.
Proof.
  induction l as [|x l IH]; intros l' i a Hmap Hnth.
  - destruct i; discriminate.
  - simpl in Hmap. destruct (f x) as [e|b] eqn:Hfx; [discriminate|].
    simpl in Hmap. destruct (rmap f l) as [e|bs] eqn:Hl; [discriminate|].
    simpl in Hmap. injection Hmap as <-.
    destruct i as [|i]; simpl in Hnth |- *.
    + injection Hnth as <-. eauto.
    + eapply IH; eauto.
Qed.

Lemma sub_datetimes_nth_error :
  forall (la lb : list (option Timestamp)) (ds : list (option Timedelta))
         (i : nat) (a b : option Timestamp),
    sub_datetimes la lb = inr ds ->
    nth_error la i = Some a ->
    nth_error lb i = Some b ->
    exists d, sub_datetime a b = inr d /\ nth_error ds i = Some d.
Proof.
  induction la as [|x la IH]; intros lb ds i a b Hsub Ha Hb.
  - destruct i; discriminate.
  - destruct lb as [|y lb]; [destruct i; discriminate|].
    simpl in Hsub.
    destruct (sub_datetime x y) as [e|d] eqn:Hxy; [discriminate|].
    simpl in Hsub.
    destruct (sub_datetimes la lb) as [e|ds'] eqn:Hrest; [discriminate|].
    simpl in Hsub. injection Hsub as <-.
    destruct i as [|i]; simpl in Ha, Hb |- *.
    + injection Ha as <-. injection Hb as <-. eauto.
    + eapply IH; eauto.
Qed.

Lemma getitem_nth_error (df : DataFrame) (name : string) :
  forall (cells : list value) (i j : nat) (row : list value),
    getitem df name = inr cells ->
    index_of name (column_names df) = Some j ->
    nth_error (df_rows df) i = Some row ->
    nth_error cells i = Some (cell row j).
Proof.
  intros cells i j row Hget Hidx Hrow.
  unfold getitem in Hget. rewrite Hidx in Hget. injection Hget as <-.
  rewrite nth_error_map, Hrow. reflexivity.
Qed.

Lemma Z_range_In (lo : Z) (n : nat) (z : Z) :
  lo <= z < lo + Z.of_nat n -> In z (Z_range lo n).
Proof.
  intros Hz. unfold Z_range. apply in_map_iff.
  exists (Z.to_nat (z - lo)). split; [lia|].
  apply in_seq. lia.
Qed.

(** ** The derived duration *)

Lemma denotesb_denotes (f : F64.t) (q : Q) :
  denotesb f q = true -> denotes f q.
Proof.
  unfold denotesb, denotes. destruct (F64.to_Q f) as [q'|]; [|discriminate].
  intros H. exists q'. split; [reflexivity|]. now apply Qeq_bool_iff.
Qed.

Lemma whole_hours_table :
  forallb whole_hours_exact (Z_range (-720) 1441) = true.
Proof. vm_compute. reflexivity. Qed.

(** A timedelta of a whole number of hours, up to thirty days either way,
    comes out as that number, with no rounding. *)
Lemma hours_of_whole_hours (h : Z) :
  -720 <= h <= 720 ->
  hours_of_timedelta (h * ns_per_hour) = F64.of_Z h
  /\ denotes (F64.of_Z h) (h # 1).
Proof.
  intros Hh.
  pose proof whole_hours_table as Htab.
  rewrite forallb_forall in Htab.
  assert (Hin : In h (Z_range (-720) 1441)) by (apply Z_range_In; lia).
  specialize (Htab h Hin).
  unfold whole_hours_exact in Htab.
  apply andb_prop in Htab as [Heq Hden].
  destruct (f64_eq_dec _ _) as [E|]; [|discriminate].
  split; [exact E | now apply denotesb_denotes].
Qed.

(** The derived cell of a row, from the two cells it is computed from. *)
Lemma resolution_time_hours_nth (df : DataFrame) (hours : list value)
  (i : nat) (row : list value) (vc vr : value) :
  resolution_time_hours df = inr hours ->
  nth_error (df_rows df) i = Some row ->
  column_cell df row "inc_sys_created_on" = Some vc ->
  column_cell df row "inc_resolved_at" = Some vr ->
  exists c r d,
    to_datetime_cell vc = inr c
    /\ to_datetime_cell vr = inr r
    /\ sub_datetime r c = inr d
    /\ nth_error hours i = Some (truediv_3600 (total_seconds d)).
Proof.
  intros Hres Hrow Hvc Hvr.
  unfold column_cell in Hvc, Hvr.
  destruct (index_of "inc_sys_created_on" (column_names df)) as [jc|] eqn:Hjc;
    [|discriminate].
  destruct (index_of "inc_resolved_at" (column_names df)) as [jr|] eqn:Hjr;
    [|discriminate].
  simpl in Hvc, Hvr. injection Hvc as <-. injection Hvr as <-.
  unfold resolution_time_hours in Hres.
  destruct (getitem df "inc_resolved_at") as [e|rcol] eqn:Hgr; [discriminate|].
  simpl in Hres.
  destruct (to_datetime rcol) as [e|rs] eqn:Htr; [discriminate|].
  simpl in Hres.
  destruct (getitem df "inc_sys_created_on") as [e|ccol] eqn:Hgc;
    [discriminate|].
  simpl in Hres.
  destruct (to_datetime ccol) as [e|cs] eqn:Htc; [discriminate|].
  simpl in Hres.
  destruct (sub_datetimes rs cs) as [e|ds] eqn:Hsub; [discriminate|].
  simpl in Hres. injection Hres as <-.
  pose proof (getitem_nth_error _ _ _ _ _ _ Hgr Hjr Hrow) as Hrcell.
  pose proof (getitem_nth_error _ _ _ _ _ _ Hgc Hjc Hrow) as Hccell.
  destruct (rmap_nth_error _ _ _ _ _ Htr Hrcell) as (r & Hr & Hrs).
  destruct (rmap_nth_error _ _ _ _ _ Htc Hccell) as (c & Hc & Hcs).
  destruct (sub_datetimes_nth_error _ _ _ _ _ _ Hsub Hrs Hcs) as (d & Hd & Hds).
  exists c, r, d. repeat split; auto.
  rewrite nth_error_map, Hds. reflexivity.
Qed.

(** Every row whose two timestamps are present gets the float64 number of
    hours of their difference. *)
Lemma resolution_time_hours_row (df : DataFrame) (hours : list value)
  (i : nat) (row : list value) (vc vr : value) (c r : Timestamp) :
  resolution_time_hours df = inr hours ->
  nth_error (df_rows df) i = Some row ->
  column_cell df row "inc_sys_created_on" = Some vc ->
  column_cell df row "inc_resolved_at" = Some vr ->
  to_datetime_cell vc = inr (Some c) ->
  to_datetime_cell vr = inr (Some r) ->
  nth_error hours i = Some (VFloat (hours_of_timedelta (r - c))).
Proof.
  intros Hres Hrow Hvc Hvr Hc Hr.
  destruct (resolution_time_hours_nth df hours i row vc vr Hres Hrow Hvc Hvr)
    as (c' & r' & d & Hc' & Hr' & Hd & Hnth).
  rewrite Hc in Hc'. rewrite Hr in Hr'.
  injection Hc' as <-. injection Hr' as <-.
  simpl in Hd.
  destruct ((int64_min <? r - c) && (r - c <=? int64_max)); [|discriminate].
  injection Hd as <-. exact Hnth.
Qed.

(** A row that lacks either timestamp gets a missing duration. *)
Lemma resolution_time_hours_missing (df : DataFrame) (hours : list value)
  (i : nat) (row : list value) (vc vr : value) :
  resolution_time_hours df = inr hours ->
  nth_error (df_rows df) i = Some row ->
  column_cell df row "inc_sys_created_on" = Some vc ->
  column_cell df row "inc_resolved_at" = Some vr ->
  to_datetime_cell vc = inr None \/ to_datetime_cell vr = inr None ->
  nth_error hours i = Some VNull.
Proof.
  intros Hres Hrow Hvc Hvr Hmiss.
  destruct (resolution_time_hours_nth df hours i row vc vr Hres Hrow Hvc Hvr)
    as (c & r & d & Hc & Hr & Hd & Hnth).
  assert (d = None) as ->.
  { destruct Hmiss as [H|H].
    - rewrite H in Hc. injection Hc as <-.
      destruct r; simpl in Hd; now injection Hd as <-.
    - rewrite H in Hr. injection Hr as <-.
      simpl in Hd. now injection Hd as <-. }
  exact Hnth.
Qed.

(** C1 (as the code has it).  For every source row with both timestamps
    present, resolution_time_hours is the float64 quotient
    [(resolved - created).total_seconds() / 3600]; whenever the two
    timestamps are a whole number of hours apart, thirty days at most, that
    float is the exact number of hours. *)
Theorem resolution_time_hours_spec (df : DataFrame) (hours : list value)
  (i : nat) (row : list value) (vc vr : value) (c r : Timestamp) :
  resolution_time_hours df = inr hours ->
  nth_error (df_rows df) i = Some row ->
  column_cell df row "inc_sys_created_on" = Some vc ->
  column_cell df row "inc_resolved_at" = Some vr ->
  to_datetime_cell vc = inr (Some c) ->
  to_datetime_cell vr = inr (Some r) ->
  nth_error hours i = Some (VFloat (hours_of_timedelta (r - c)))
  /\ (forall h : Z,
        r - c = h * ns_per_hour -> -720 <= h <= 720 ->
        hours_of_timedelta (r - c) = F64.of_Z h
        /\ denotes (hours_of_timedelta (r - c)) (exact_hours c r)).
Proof.
  intros Hres Hrow Hvc Hvr Hc Hr. split.
  - eapply resolution_time_hours_row; eauto.
  - intros h Hdiff Hh.
    destruct (hours_of_whole_hours h Hh) as [Heq (q & Hq & Hqh)].
    rewrite Hdiff, Heq. split; [reflexivity|].
    exists q. split; [exact Hq|].
    rewrite Hqh. unfold exact_hours. rewrite Hdiff.
    unfold Qeq. simpl. unfold ns_per_hour, ns_per_second. lia.
Qed.

Lemma resolution_time_hours_one_day :
  resolution_time_hours one_day_sheet = inr [VFloat (F64.of_Z 24)]
  /\ nth_error [VFloat (F64.of_Z 24)] 0
     = Some (VFloat (hours_of_timedelta
                       (mk_timestamp 2024 1 2 0 0 0
                        - mk_timestamp 2024 1 1 0 0 0)))
  /\ denotes (F64.of_Z 24) (24 # 1).
Proof.
  assert (Hrun : resolution_time_hours one_day_sheet
                 = inr [VFloat (F64.of_Z 24)]) by (vm_compute; reflexivity).
  destruct (resolution_time_hours_spec one_day_sheet [VFloat (F64.of_Z 24)]
              0 [VStr "INC001"; VStr "2024-01-01T00:00:00";
                 VStr "2024-01-02T00:00:00"]
              (VStr "2024-01-01T00:00:00") (VStr "2024-01-02T00:00:00")
              (mk_timestamp 2024 1 1 0 0 0) (mk_timestamp 2024 1 2 0 0 0)
              Hrun eq_refl eq_refl eq_refl eq_refl eq_refl) as [Hcell Hexact].
  split; [exact Hrun|]. split; [exact Hcell|].
  destruct (Hexact 24 eq_refl ltac:(lia)) as [Heq (q & Hq & Hqe)].
  exists q. rewrite <- Heq. split; [exact Hq|].
  rewrite Hqe. vm_compute. reflexivity.
Defined.

(** C1 as stated fails: one second is 1/3600 of an hour, and the float64
    the extractor stores for it denotes another number. *)
Lemma resolution_time_hours_not_exact :
  exists f q,
    resolution_time_hours one_second_sheet = inr [VFloat f]
    /\ F64.to_Q f = Some q
    /\ ~ (q == exact_hours (mk_timestamp 2024 1 1 0 0 0)
                           (mk_timestamp 2024 1 1 0 0 1))%Q.
Proof.
  eexists. eexists. split; [vm_compute; reflexivity|].
  split; [vm_compute; reflexivity|].
  intros H. vm_compute in H. discriminate H.
Qed.

(** ** The Loader *)


(** The converse: with a readable staging file and the database up, the
    Loader returns. *)
Lemma load_to_postgres_runs (w : World) (file : CsvFile) (df : DataFrame) :
  staging_csv w = Some file ->
  read_csv file = inr df ->
  pg_up w = true ->
  load_to_postgres w
  = (inr tt, with_log (log w ++ [(INFO, Loaded (df_len df))])
               (with_table (Some (table_of_frame df)) w)).
Proof.
  intros Hfile Hread Hup.
  unfold load_to_postgres, try_except, load_body, bind, pd_read_csv,
    df_to_sql, logging, raise.
  rewrite Hfile, Hread, Hup.
  assert (Hsql : to_sql df Replace (itsm_raw_tickets w)
                 = inr (Some (table_of_frame df)))
    by (unfold to_sql; destruct (itsm_raw_tickets w); reflexivity).
  rewrite Hsql. reflexivity.
Qed.

Lemma read_csv_rows (file : CsvFile) (df : DataFrame) :
  read_csv file = inr df ->
  df_len df = List.length (csv_records file).
Proof.
  unfold read_csv, df_len. intros H.
  destruct (csv_header file); [discriminate|].
  destruct (existsb _ _); [discriminate|].
  injection H as <-. unfold frame_of_records. cbn [df_rows].
  now rewrite length_map.
Qed.

Lemma table_of_frame_rows (df : DataFrame) :
  List.length (tbl_rows (table_of_frame df)) = df_len df.
Proof. unfold table_of_frame, df_len. simpl. now rewrite length_map. Qed.



(** *** The schema after a load *)









(** ** The quality queries *)

(** *** Outliers *)

Lemma outlier_where_true (v : value) :
  sql_is_true (outlier_where v) = true <-> outlier v.
Proof.
  unfold outlier_where, sql_gt, sql_lt, outlier, below, above.
  destruct (pg_compare v 720) as [[| |]|], (pg_compare v 0) as [[| |]|];
    simpl; split; intros H; try discriminate; try reflexivity;
    try (destruct H; discriminate); auto.
Qed.

Lemma outlier_null : ~ outlier VNull.
Proof. intros [H|H]; discriminate. Qed.

Lemma outlier_int (z : Z) : outlier (VInt z) <-> z < 0 \/ 720 < z.
Proof.
  unfold outlier, below, above, pg_compare. split.
  - intros [H|H]; injection H as H.
    + left. now apply Z.compare_lt_iff.
    + right. now apply Z.compare_gt_iff.
  - intros [H|H].
    + left. f_equal. now apply Z.compare_lt_iff.
    + right. f_equal. now apply Z.compare_gt_iff.
Qed.

Lemma filter_ext_length {A : Type} (f g : A -> bool) (l : list A) :
  (forall a, In a l -> f a = g a) ->
  List.length (filter f l) = List.length (filter g l).
Proof.
  intros H. now rewrite (filter_ext_in f g l H).
Qed.

(** The count of the outlier query is the number of outlier rows. *)
Lemma outlier_query_count (t : Table) (n : nat) :
  outlier_query (Some t) = inr n ->
  exists i ty,
    lookup_column "resolution_time_hours" (tbl_columns t) = Some (i, ty)
    /\ n = List.length (outlier_rows t i).
Proof.
  unfold outlier_query. intros H.
  destruct (lookup_column _ _) as [[i ty]|]; [|discriminate].
  destruct (is_numeric_type ty); [|discriminate].
  injection H as <-. exists i, ty. split; [reflexivity|].
  unfold outlier_rows. apply filter_ext_length. intros row _.
  destruct (outlier_dec (cell row i)) as [Ho|Ho].
  - now apply outlier_where_true.
  - destruct (sql_is_true _) eqn:E; [|reflexivity].
    apply outlier_where_true in E. contradiction.
Qed.

(** The two bounds are strict, and a NULL is on neither side of them. *)
Example outlier_where_boundaries :
  map (fun v => sql_is_true (outlier_where v))
    [VFloat (F64.of_Z 0); VFloat (S754_zero true); VFloat (F64.of_Z 720);
     VInt 720; VInt 721; VInt (-1); VNull;
     VFloat (hours_of_timedelta (720 * ns_per_hour + 1000));
     VFloat (hours_of_timedelta (-1))]
  = [false; false; false; false; true; true; false; true; true].
Proof. vm_compute. reflexivity. Qed.

(** *** The thresholds as real numbers

    On a float64 in canonical form the two comparisons of the WHERE clause
    say what they say of the real number the float denotes. *)








(** *** Duplicates *)










(** Three rows of one number and two of another are two groups, not five
    rows and not three extra rows. *)
Example duplicate_query_counts_groups :
  duplicate_query
    (Some {| tbl_columns := [("inc_number", TEXT)];
             tbl_rows := [[VStr "INC001"]; [VStr "INC002"]; [VStr "INC001"];
                          [VStr "INC003"]; [VStr "INC002"];
                          [VStr "INC001"]] |})
  = inr 2%nat.
Proof. vm_compute. reflexivity. Qed.

(** ** The Quality Checker as a task *)

Ltac unfold_task :=
  unfold when;
  unfold try_except, bind, ret, raise, lift, logging, get_first,
    pd_read_csv, pd_read_excel, df_to_csv, df_to_sql, postgres_operator;
  cbv beta.

Lemma with_log_with_log (l l' : list (level * message)) (w : World) :
  with_log l (with_log l' w) = with_log l w.
Proof. reflexivity. Qed.

Lemma with_log_same (w : World) : with_log (log w) w = w.
Proof. destruct w; reflexivity. Qed.

(** Both queries answer: the checker returns, whatever the two counts. *)
Lemma quality_checks_return (w : World) (d o : nat) :
  pg_up w = true ->
  duplicate_query (itsm_raw_tickets w) = inr d ->
  outlier_query (itsm_raw_tickets w) = inr o ->
  run_data_quality_checks w
  = (inr tt,
     with_log (log w ++ duplicate_warning d ++ outlier_warning o
               ++ [(INFO, ChecksCompleted)]) w).
Proof.
  intros Hup Hd Ho.
  unfold run_data_quality_checks, quality_body, duplicate_warning,
    outlier_warning.
  unfold_task. rewrite Hup, Hd.
  destruct (0 <? d)%nat; cbn [with_log pg_up itsm_raw_tickets log];
    rewrite ?Hup, Ho;
    destruct (0 <? o)%nat; cbn [with_log pg_up itsm_raw_tickets log];
    rewrite <- ?app_assoc; reflexivity.
Qed.

(** A query or the connection fails: the error is logged and raised again,
    after the duplicate warning if that check had got through. *)
Lemma quality_checks_raise (w : World) (e : exn) :
  quality_failure w = Some e ->
  run_data_quality_checks w
  = (inl e,
     with_log (log w ++ warned_before_failure w
               ++ [(ERROR, ErrorInQualityChecks e)]) w).
Proof.
  unfold quality_failure, warned_before_failure. intros Hf.
  unfold run_data_quality_checks, quality_body. unfold_task.
  destruct (pg_up w) eqn:Hup.
  - destruct (duplicate_query (itsm_raw_tickets w)) as [e'|d] eqn:Hd.
    + injection Hf as <-. reflexivity.
    + destruct (outlier_query (itsm_raw_tickets w)) as [e'|o] eqn:Ho;
        [|discriminate].
      injection Hf as <-. unfold duplicate_warning.
      destruct (0 <? d)%nat; cbn [with_log pg_up itsm_raw_tickets log];
        rewrite ?Hup, Ho; cbn [with_log log];
        rewrite <- ?app_assoc; reflexivity.
  - injection Hf as <-. reflexivity.
Qed.

Lemma quality_failure_none (w : World) :
  quality_failure w = None ->
  pg_up w = true
  /\ exists d o,
       duplicate_query (itsm_raw_tickets w) = inr d
       /\ outlier_query (itsm_raw_tickets w) = inr o.
Proof.
  unfold quality_failure. intros H.
  destruct (pg_up w); [|discriminate].
  destruct (duplicate_query _) as [|d]; [discriminate|].
  destruct (outlier_query _) as [|o]; [discriminate|].
  split; [reflexivity|]. exists d, o. auto.
Qed.

(** C3.  Whatever the table holds, the Quality Checker returns whenever
    the connection opens and both queries answer, however many duplicates
    and outliers they count; it raises exactly when the connection or a
    query fails, and then the error is in the log, as the last record, and
    is the exception the caller receives. *)
Theorem quality_checks_raise_iff_query_error (w : World) :
  (forall d o,
      pg_up w = true ->
      duplicate_query (itsm_raw_tickets w) = inr d ->
      outlier_query (itsm_raw_tickets w) = inr o ->
      fst (run_data_quality_checks w) = inr tt)
  /\ (forall e,
        fst (run_data_quality_checks w) = inl e <-> quality_failure w = Some e)
  /\ (forall e,
        fst (run_data_quality_checks w) = inl e ->
        exists earlier,
          log (snd (run_data_quality_checks w))
          = earlier ++ [(ERROR, ErrorInQualityChecks e)]).
Proof.
  split; [|split].
  - intros d o Hup Hd Ho.
    now rewrite (quality_checks_return w d o Hup Hd Ho).
  - intros e. split.
    + intros Hrun. destruct (quality_failure w) as [e'|] eqn:Hf.
      * rewrite (quality_checks_raise w e' Hf) in Hrun.
        simpl in Hrun. congruence.
      * destruct (quality_failure_none w Hf) as (Hup & d & o & Hd & Ho).
        rewrite (quality_checks_return w d o Hup Hd Ho) in Hrun.
        discriminate.
    + intros Hf. now rewrite (quality_checks_raise w e Hf).
  - intros e Hrun.
    destruct (quality_failure w) as [e'|] eqn:Hf.
    + rewrite (quality_checks_raise w e' Hf) in Hrun |- *.
      simpl in Hrun. injection Hrun as ->.
      exists (log w ++ warned_before_failure w). cbn [snd with_log log].
      now rewrite app_assoc.
    + destruct (quality_failure_none w Hf) as (Hup & d & o & Hd & Ho).
      rewrite (quality_checks_return w d o Hup Hd Ho) in Hrun.
      discriminate.
Qed.

Lemma skipn_length_app {A : Type} (l l' : list A) :
  skipn (List.length l) (l ++ l') = l'.
Proof. induction l; simpl; auto. Qed.


Lemma outlier_rows_In (t : Table) (i : nat) (row : list value) :
  In row (outlier_rows t i) <-> In row (tbl_rows t) /\ outlier (cell row i).
Proof.
  unfold outlier_rows. rewrite filter_In.
  destruct (outlier_dec (cell row i)); split; intros [H1 H2];
    (split; [exact H1|]); auto; discriminate.
Qed.

Lemma In_outlier_warning (d o k : nat) :
  In (WARNING, FoundOutliers k)
    (duplicate_warning d ++ outlier_warning o ++ [(INFO, ChecksCompleted)])
  <-> k = o /\ (0 < o)%nat.
Proof.
  rewrite !in_app_iff.
  assert (H1 : ~ In (WARNING, FoundOutliers k) (duplicate_warning d)).
  { unfold duplicate_warning. destruct (0 <? d)%nat; simpl;
      [intros [H|[]]; discriminate|tauto]. }
  assert (H3 : ~ In (WARNING, FoundOutliers k) [(INFO, ChecksCompleted)])
    by (intros [H|[]]; discriminate).
  assert (H2 : In (WARNING, FoundOutliers k) (outlier_warning o)
               <-> k = o /\ (0 < o)%nat).
  { unfold outlier_warning. destruct (0 <? o)%nat eqn:Hpos; simpl.
    - apply Nat.ltb_lt in Hpos. split.
      + intros [H|[]]. injection H as <-. auto.
      + intros [-> _]. now left.
    - apply Nat.ltb_ge in Hpos. split; [tauto|lia]. }
  tauto.
Qed.

(** C4.  The outlier check counts the rows whose resolution_time_hours is
    negative or exceeds 720, each of them and no other row, and logs its
    warning exactly when that count is positive. *)
Theorem outlier_check_counts (w : World) (t : Table) (d o : nat) :
  pg_up w = true ->
  itsm_raw_tickets w = Some t ->
  duplicate_query (Some t) = inr d ->
  outlier_query (Some t) = inr o ->
  exists i ty,
    lookup_column "resolution_time_hours" (tbl_columns t) = Some (i, ty)
    /\ o = List.length (outlier_rows t i)
    /\ (forall row,
          In row (outlier_rows t i)
          <-> In row (tbl_rows t) /\ outlier (cell row i))
    /\ (In (WARNING, FoundOutliers o)
          (new_records w (snd (run_data_quality_checks w)))
        <-> (0 < o)%nat)
    /\ (forall k,
          In (WARNING, FoundOutliers k)
            (new_records w (snd (run_data_quality_checks w))) ->
          k = o).
Proof.
  intros Hup Ht Hd Ho.
  destruct (outlier_query_count t o Ho) as (i & ty & Hcol & Hcount).
  exists i, ty.
  split; [exact Hcol|]. split; [exact Hcount|].
  split; [intros row; apply outlier_rows_In|].
  rewrite <- Ht in Hd, Ho.
  rewrite (quality_checks_return w d o Hup Hd Ho).
  unfold new_records. cbn [snd with_log log]. rewrite skipn_length_app.
  split.
  - rewrite In_outlier_warning. split; [tauto|auto].
  - intros k Hk. now apply In_outlier_warning in Hk.
Qed.




Lemma loaded_world_table : itsm_raw_tickets loaded_world = Some loaded_table.
Proof. vm_compute. reflexivity. Qed.

Lemma outlier_check_counts_sample :
  exists i ty,
    lookup_column "resolution_time_hours" (tbl_columns loaded_table)
    = Some (i, ty)
    /\ 1%nat = List.length (outlier_rows loaded_table i)
    /\ (forall row,
          In row (outlier_rows loaded_table i)
          <-> In row (tbl_rows loaded_table) /\ outlier (cell row i))
    /\ (In (WARNING, FoundOutliers 1)
          (new_records loaded_world
             (snd (run_data_quality_checks loaded_world)))
        <-> (0 < 1)%nat)
    /\ (forall k,
          In (WARNING, FoundOutliers k)
            (new_records loaded_world
               (snd (run_data_quality_checks loaded_world))) ->
          k = 1%nat).
Proof.
  apply (outlier_check_counts loaded_world loaded_table 1 1);
    vm_compute; reflexivity.
Defined.


(** *** Rows without a duration *)

Lemma filter_filter_length {A : Type} (f g : A -> bool) (l : list A) :
  (forall a, f a = true -> g a = true) ->
  List.length (filter f (filter g l)) = List.length (filter f l).
Proof.
  intros H. induction l as [|a l IH]; [reflexivity|].
  simpl. destruct (g a) eqn:Hg; simpl.
  - destruct (f a); simpl; now rewrite IH.
  - destruct (f a) eqn:Hf; [|exact IH].
    apply H in Hf. congruence.
Qed.

(** C10 (as the code has it).  A row whose resolution_time_hours is NULL
    is not among the rows the outlier query counts, so it adds nothing to
    the count the outlier warning is decided on: the query gives the same
    count on the table without such rows, and every row it does count has
    a duration that is present and below 0 or above 720. *)
Theorem null_duration_not_an_outlier (t : Table) (o : nat) :
  outlier_query (Some t) = inr o ->
  exists i ty,
    lookup_column "resolution_time_hours" (tbl_columns t) = Some (i, ty)
    /\ o = List.length (outlier_rows t i)
    /\ (forall row,
          In row (tbl_rows t) -> cell row i = VNull ->
          ~ In row (outlier_rows t i))
    /\ (forall row,
          In row (outlier_rows t i) ->
          cell row i <> VNull
          /\ (below (cell row i) 0 \/ above (cell row i) 720))
    /\ outlier_query (Some (without_nulls t i)) = inr o.
Proof.
  intros Ho.
  destruct (outlier_query_count t o Ho) as (i & ty & Hcol & Hcount).
  exists i, ty.
  split; [exact Hcol|]. split; [exact Hcount|]. split; [|split].
  - intros row _ Hnull Hin. apply outlier_rows_In in Hin as [_ Hout].
    rewrite Hnull in Hout. now apply outlier_null.
  - intros row Hin. apply outlier_rows_In in Hin as [_ Hout].
    split; [|exact Hout].
    intros Hnull. rewrite Hnull in Hout. now apply outlier_null.
  - unfold outlier_query in Ho |- *. cbn [without_nulls tbl_columns tbl_rows].
    rewrite Hcol in Ho |- *.
    destruct (is_numeric_type ty); [|discriminate].
    injection Ho as <-. f_equal.
    apply filter_filter_length. intros row Hrow.
    destruct (cell row i); try reflexivity. discriminate.
Qed.

Lemma null_duration_not_an_outlier_sample :
  exists i ty,
    lookup_column "resolution_time_hours" (tbl_columns loaded_table)
    = Some (i, ty)
    /\ 1%nat = List.length (outlier_rows loaded_table i)
    /\ (forall row,
          In row (tbl_rows loaded_table) -> cell row i = VNull ->
          ~ In row (outlier_rows loaded_table i))
    /\ (forall row,
          In row (outlier_rows loaded_table i) ->
          cell row i <> VNull
          /\ (below (cell row i) 0 \/ above (cell row i) 720))
    /\ outlier_query (Some (without_nulls loaded_table i)) = inr 1%nat.
Proof.
  apply (null_duration_not_an_outlier loaded_table 1).
  vm_compute. reflexivity.
Defined.

(** C10 as stated fails for the duplicate threshold: rows without a
    duration are counted by the duplicate check like any other row.  Here
    every row lacks a duration, and the duplicate count is 1 and its
    warning is logged. *)
Lemma null_duration_rows_count_as_duplicates :
  Forall (fun row => cell row 1 = VNull) (tbl_rows unresolved_twins)
  /\ duplicate_query (Some unresolved_twins) = inr 1%nat
  /\ duplicate_query (Some (without_nulls unresolved_twins 1)) = inr 0%nat
  /\ run_data_quality_checks twins_world
     = (inr tt,
        with_log [(WARNING, FoundDuplicates 1); (INFO, ChecksCompleted)]
          twins_world).
Proof.
  split; [repeat constructor|].
  split; [vm_compute; reflexivity|].
  split; vm_compute; reflexivity.
Qed.

(** ** Errors in the three Python tasks *)

Ltac norm_log :=
  cbn [with_log with_staging_csv with_table log staging_writable
         source_sheet staging_csv pg_up itsm_raw_tickets];
  rewrite <- ?app_assoc; cbn [app].

Lemma extract_all_or_raise :
  all_or_raise extract_itsm_data extract_failure ErrorInExtraction
    extract_completed.
Proof.
  intros w. unfold extract_failure, extract_itsm_data, extract_body.
  unfold_task.
  destruct (source_sheet w) as [df|] eqn:Hsheet.
  - norm_log.
    destruct (resolution_time_hours df) as [e|hours] eqn:Hres.
    + exists [(INFO, Extracted (df_len df));
              (INFO, Columns (column_names df));
              (INFO, MissingData (missing_data df))].
      norm_log. reflexivity.
    + destruct (staging_writable w) eqn:Hwr.
      * eexists. split; [reflexivity|].
        exists df, hours. repeat split; auto.
        norm_log. reflexivity.
      * exists [(INFO, Extracted (df_len df));
                (INFO, Columns (column_names df));
                (INFO, MissingData (missing_data df))].
        norm_log. reflexivity.
  - exists []. reflexivity.
Qed.

Lemma load_all_or_raise :
  all_or_raise load_to_postgres load_failure ErrorInLoading load_completed.
Proof.
  intros w. unfold load_failure.
  destruct (staging_csv w) as [file|] eqn:Hfile.
  - destruct (read_csv file) as [e|df] eqn:Hread.
    + exists []. unfold load_to_postgres, load_body. unfold_task.
      rewrite Hfile, Hread. reflexivity.
    + destruct (pg_up w) eqn:Hup.
      * eexists. split.
        -- apply (load_to_postgres_runs w file df Hfile Hread Hup).
        -- exists file, df. auto.
      * exists []. unfold load_to_postgres, load_body. unfold_task.
        rewrite Hfile, Hread, Hup. reflexivity.
  - exists []. unfold load_to_postgres, load_body. unfold_task.
    rewrite Hfile. reflexivity.
Qed.

Lemma quality_all_or_raise :
  all_or_raise run_data_quality_checks quality_failure ErrorInQualityChecks
    quality_completed.
Proof.
  intros w. destruct (quality_failure w) as [e|] eqn:Hf.
  - exists (warned_before_failure w). now apply quality_checks_raise.
  - destruct (quality_failure_none w Hf) as (Hup & d & o & Hd & Ho).
    eexists. split; [apply (quality_checks_return w d o Hup Hd Ho)|].
    exists d, o. auto.
Qed.

(** C7.  In extraction, loading and quality checking alike, an error of any
    step is logged with the task's message and raised again unchanged, and
    a task that returns has done all of its steps: there is no outcome in
    which an error is swallowed. *)
Theorem tasks_all_or_raise :
  all_or_raise extract_itsm_data extract_failure ErrorInExtraction
    extract_completed
  /\ all_or_raise load_to_postgres load_failure ErrorInLoading load_completed
  /\ all_or_raise run_data_quality_checks quality_failure
       ErrorInQualityChecks quality_completed.
Proof.
  split; [apply extract_all_or_raise|].
  split; [apply load_all_or_raise|apply quality_all_or_raise].
Qed.

(** ** The Schema Initializer *)

Lemma with_table_same (w : World) :
  with_table (itsm_raw_tickets w) w = w.
Proof. destruct w; reflexivity. Qed.

(** C6.  With the database reachable, the Schema Initializer returns; on a
    table that exists it changes nothing, neither columns nor rows; and
    run a second time it returns again and leaves the world of the first
    run as it is. *)
Theorem create_staging_table_noop (w : World) :
  pg_up w = true ->
  (forall t,
      itsm_raw_tickets w = Some t -> create_staging_table w = (inr tt, w))
  /\ exists w1,
       create_staging_table w = (inr tt, w1)
       /\ create_staging_table w1 = (inr tt, w1).
Proof.
  intros Hup. unfold create_staging_table, postgres_operator.
  rewrite Hup. split.
  - intros t Ht. rewrite Ht. cbn [create_table_if_not_exists].
    rewrite <- Ht. now rewrite with_table_same.
  - eexists. split; [reflexivity|].
    cbn [with_table pg_up itsm_raw_tickets]. rewrite Hup.
    destruct (itsm_raw_tickets w); reflexivity.
Qed.

Lemma create_staging_table_noop_sample :
  (forall t,
      itsm_raw_tickets loaded_world = Some t ->
      create_staging_table loaded_world = (inr tt, loaded_world))
  /\ exists w1,
       create_staging_table loaded_world = (inr tt, w1)
       /\ create_staging_table w1 = (inr tt, w1).
Proof.
  apply (create_staging_table_noop loaded_world).
  vm_compute. reflexivity.
Defined.

(** ** The dependency chain *)

Lemma operator_eqb_eq (a b : operator) : operator_eqb a b = true <-> a = b.
Proof. destruct a, b; simpl; split; congruence. Qed.

Lemma mem_task_In (t : operator) (l : list operator) :
  mem_task t l = true <-> In t l.
Proof.
  unfold mem_task. rewrite existsb_exists. split.
  - intros (u & Hu & He). apply operator_eqb_eq in He. now subst.
  - intros H. exists t. split; [exact H|now apply operator_eqb_eq].
Qed.

Lemma dag_edges_chain :
  dag_edges
  = [(extract_data_task, create_staging_table_task);
     (create_staging_table_task, load_data_task);
     (load_data_task, data_quality_task);
     (data_quality_task, run_dbt_task);
     (run_dbt_task, run_dbt_tests_task)].
Proof. reflexivity. Qed.

Lemma upstream_predecessor (t : operator) :
  upstream t = option_list (predecessor t).
Proof. destruct t; reflexivity. Qed.

Lemma downstream_successor (t : operator) :
  downstream t = option_list (successor t).
Proof. destruct t; reflexivity. Qed.

(** A task that may run when the first [k] tasks of the chain have
    succeeded is the next task of the chain. *)
Lemma can_run_next (k : nat) (t : operator) :
  can_run (firstn k chain) t = true ->
  nth_error chain k = Some t.
Proof.
  do 7 (destruct k as [|k];
        [destruct t; vm_compute; intros H; (reflexivity || discriminate H)|]).
  destruct t; vm_compute; intros H; discriminate H.
Qed.

Lemma firstn_snoc {A : Type} (l : list A) (k : nat) (a : A) :
  nth_error l k = Some a -> firstn k l ++ [a] = firstn (S k) l.
Proof.
  revert k. induction l as [|x l IH]; intros [|k] H; try discriminate.
  - injection H as ->. reflexivity.
  - simpl in H |- *. f_equal. now apply IH.
Qed.

(** Whatever the scheduler does, the tasks that have succeeded are an
    initial stretch of the chain, in chain order. *)
Lemma reachable_prefix (s : list operator) :
  reachable s -> exists k, s = firstn k chain.
Proof.
  induction 1 as [|s s' _ [k ->] Hstep].
  - exists O. reflexivity.
  - inversion Hstep as [? t Hrun]; subst.
    exists (S k). apply firstn_snoc. now apply can_run_next.
Qed.

(** C8.  The wiring of lines 189-190 is the chain Extractor, Schema
    Initializer, Loader, Quality Checker, Transformer, Transform Verifier:
    each task has the task before it as its only upstream task and the task
    after it as its only downstream task, and in every state a DAG run can
    reach, a task that has run was preceded by its predecessor's success
    and the tasks have run in chain order. *)
Theorem dag_is_linear_chain :
  dag_edges
  = [(extract_data_task, create_staging_table_task);
     (create_staging_table_task, load_data_task);
     (load_data_task, data_quality_task);
     (data_quality_task, run_dbt_task);
     (run_dbt_task, run_dbt_tests_task)]
  /\ (forall t, upstream t = option_list (predecessor t))
  /\ (forall t, downstream t = option_list (successor t))
  /\ (forall s t,
        reachable s -> can_run s t = true ->
        forall u, predecessor t = Some u -> In u s)
  /\ (forall s, reachable s -> exists k, s = firstn k chain).
Proof.
  split; [apply dag_edges_chain|].
  split; [apply upstream_predecessor|].
  split; [apply downstream_successor|].
  split; [|apply reachable_prefix].
  intros s t Hs Hrun u Hu.
  unfold can_run in Hrun. apply andb_prop in Hrun as [_ Hup].
  rewrite upstream_predecessor, Hu in Hup. simpl in Hup.
  apply andb_prop in Hup as [Hup _]. now apply mem_task_In.
Qed.

(** ** The staging tasks end to end *)

Example staging_tasks_run :
  let '(result, w) := staging_tasks fresh_world in
  result = inr tt
  /\ log w
     = [(INFO, Extracted 4);
        (INFO, Columns ["inc_number"; "inc_sys_created_on";
                        "inc_resolved_at"]);
        (INFO, MissingData [("inc_resolved_at", 1%nat)]);
        (INFO, SavedToStaging);
        (INFO, Loaded 4);
        (WARNING, FoundDuplicates 1);
        (WARNING, FoundOutliers 2);
        (INFO, ChecksCompleted)]
  /\ itsm_raw_tickets w
     = Some
         {| tbl_columns := [("inc_number", TEXT);
                            ("inc_sys_created_on", TEXT);
                            ("inc_resolved_at", TEXT);
                            ("resolution_time_hours", DOUBLE_PRECISION)];
            tbl_rows :=
              [[VStr "INC001"; VStr "2024-01-01 00:00:00";
                VStr "2024-01-02 00:00:00"; VFloat (F64.of_Z 24)];
               [VStr "INC001"; VStr "2024-01-01 00:00:00"; VNull; VNull];
               [VStr "INC003"; VStr "2024-01-01 00:00:00";
                VStr "2024-03-01 00:00:00"; VFloat (F64.of_Z 1440)];
               [VStr "INC004"; VStr "2024-01-02 00:00:00";
                VStr "2024-01-01 00:00:00"; VFloat (F64.of_Z (-24))]] |}.
Proof. vm_compute. repeat split. Qed.

(** With the database down the Extractor still runs, the Schema
    Initializer raises, and the run stops there. *)
Example staging_tasks_database_down :
  let down :=
    {| source_sheet := Some sample_sheet;
       staging_writable := true;
       staging_csv := None;
       pg_up := false;
       itsm_raw_tickets := None;
       log := [] |} in
  fst (staging_tasks down) = inl (OperationalError conn_id)
  /\ itsm_raw_tickets (snd (staging_tasks down)) = None
  /\ fst (load_to_postgres (snd (extract_itsm_data down)))
     = inl (OperationalError conn_id)
  /\ last (log (snd (load_to_postgres (snd (extract_itsm_data down))))) 
       (INFO, ChecksCompleted)
     = (ERROR, ErrorInLoading (OperationalError conn_id)).
Proof. vm_compute. repeat split. Qed.

(** A run state every task has reached: the chain can be run to its end. *)
Example chain_is_reachable : reachable chain.
Proof.
  assert (Hstep : forall k t,
             reachable (firstn k chain) ->
             can_run (firstn k chain) t = true ->
             nth_error chain k = Some t ->
             reachable (firstn (S k) chain)).
  { intros k t Hr Hc Hn. rewrite <- (firstn_snoc chain k t Hn).
    eapply reach_step; [exact Hr|]. now constructor. }
  pose proof reach_start as H0.
  change [] with (firstn 0 chain) in H0.
  pose proof (Hstep 0%nat extract_data_task H0 eq_refl eq_refl) as H1.
  pose proof (Hstep 1%nat create_staging_table_task H1 eq_refl eq_refl) as H2.
  pose proof (Hstep 2%nat load_data_task H2 eq_refl eq_refl) as H3.
  pose proof (Hstep 3%nat data_quality_task H3 eq_refl eq_refl) as H4.
  pose proof (Hstep 4%nat run_dbt_task H4 eq_refl eq_refl) as H5.
  exact (Hstep 5%nat run_dbt_tests_task H5 eq_refl eq_refl).
Qed.

(** ** The older formula for total_seconds

    Before pandas 2.0 the seconds were the float64 product [1e-9 * ns].  On
    the documented example and on a difference of one second the two
    formulas give the same float; on other whole hours they need not, nine
    hours being the first where the older one is off by a rounding. *)
Example total_seconds_legacy_one_day :
  truediv_3600 (total_seconds_legacy (Some (24 * ns_per_hour)))
  = VFloat (F64.of_Z 24)
  /\ truediv_3600 (total_seconds_legacy (Some ns_per_second))
     = truediv_3600 (total_seconds (Some ns_per_second)).
Proof. vm_compute. repeat split. Qed.

Example total_seconds_legacy_nine_hours :
  truediv_3600 (total_seconds (Some (9 * ns_per_hour))) = VFloat (F64.of_Z 9)
  /\ truediv_3600 (total_seconds_legacy (Some (9 * ns_per_hour)))
     <> VFloat (F64.of_Z 9).
Proof. split; [vm_compute; reflexivity|vm_compute; discriminate]. Qed.

(* ================================================================== *)
(** * Further properties of the tasks *)

(** ** The Extractor *)

Lemma rmap_length {A B : Type} (f : A -> Result B) :
  forall (l : list A) (l' : list B),
    rmap f l = inr l' -> List.length l' = List.length l.
Proof.
  induction l as [|a l IH]; intros l' H; simpl in H.
  - injection H as <-. reflexivity.
  - destruct (f a); [discriminate|]. simpl in H.
    destruct (rmap f l) as [|bs]; [discriminate|]. simpl in H.
    injection H as <-. simpl. f_equal. now apply IH.
Qed.

Lemma sub_datetimes_length :
  forall (la lb : list (option Timestamp)) (ds : list (option Timedelta)),
    List.length la = List.length lb ->
    sub_datetimes la lb = inr ds ->
    List.length ds = List.length la.
Proof.
  induction la as [|a la IH]; intros [|b lb] ds Hlen H;
    simpl in Hlen, H; try discriminate.
  - injection H as <-. reflexivity.
  - destruct (sub_datetime a b); [discriminate|]. simpl in H.
    destruct (sub_datetimes la lb) as [|ds'] eqn:E; [discriminate|].
    simpl in H. injection H as <-. simpl. f_equal.
    apply (IH lb); [lia|exact E].
Qed.

Lemma getitem_length (df : DataFrame) (name : string) (cells : list value) :
  getitem df name = inr cells -> List.length cells = df_len df.
Proof.
  unfold getitem, df_len. destruct (index_of _ _); [|discriminate].
  intros H. injection H as <-. apply length_map.
Qed.

(** The derived column has one cell per row of the sheet. *)
Lemma resolution_time_hours_length (df : DataFrame) (hours : list value) :
  resolution_time_hours df = inr hours ->
  List.length hours = df_len df.
Proof.
  unfold resolution_time_hours. intros H.
  destruct (getitem df "inc_resolved_at") as [|rcol] eqn:Hgr; [discriminate|].
  simpl in H.
  destruct (to_datetime rcol) as [|rs] eqn:Htr; [discriminate|].
  simpl in H.
  destruct (getitem df "inc_sys_created_on") as [|ccol] eqn:Hgc;
    [discriminate|].
  simpl in H.
  destruct (to_datetime ccol) as [|cs] eqn:Htc; [discriminate|].
  simpl in H.
  destruct (sub_datetimes rs cs) as [|ds] eqn:Hsub; [discriminate|].
  simpl in H. injection H as <-.
  apply rmap_length in Htr. apply rmap_length in Htc.
  apply getitem_length in Hgr. apply getitem_length in Hgc.
  rewrite length_map.
  rewrite (sub_datetimes_length rs cs ds); [lia|lia|exact Hsub].
Qed.

(** X1.  In a run of the duration computation that returns, the duration
    of a row is missing exactly when its creation or its resolution
    timestamp is missing; with both present it is a float. *)
Theorem duration_missing_iff_timestamp_missing (df : DataFrame)
  (hours : list value) (i : nat) (row : list value) (vc vr : value) :
  resolution_time_hours df = inr hours ->
  nth_error (df_rows df) i = Some row ->
  column_cell df row "inc_sys_created_on" = Some vc ->
  column_cell df row "inc_resolved_at" = Some vr ->
  (nth_error hours i = Some VNull
   <-> to_datetime_cell vc = inr None \/ to_datetime_cell vr = inr None)
  /\ (nth_error hours i <> Some VNull ->
      exists f, nth_error hours i = Some (VFloat f)).
Proof.
  intros Hres Hrow Hvc Hvr.
  destruct (resolution_time_hours_nth df hours i row vc vr Hres Hrow Hvc Hvr)
    as (c & r & d & Hc & Hr & Hd & Hnth).
  rewrite Hnth, Hc, Hr.
  destruct c as [c|], r as [r|]; simpl in Hd;
    try (injection Hd as <-; simpl;
         split; [split; [intros _; auto|reflexivity]|congruence]).
  destruct ((int64_min <? r - c) && (r - c <=? int64_max)); [|discriminate].
  injection Hd as <-. simpl. split.
  - split; [discriminate|]. intros [H|H]; discriminate.
  - intros _. eexists. reflexivity.
Qed.

Lemma duration_missing_iff_timestamp_missing_sample :
  (nth_error sample_hours 1 = Some VNull
   <-> to_datetime_cell (VTime (mk_timestamp 2024 1 1 0 0 0)) = inr None
       \/ to_datetime_cell VNull = inr None)
  /\ (nth_error sample_hours 1 <> Some VNull ->
      exists f, nth_error sample_hours 1 = Some (VFloat f)).
Proof.
  apply (duration_missing_iff_timestamp_missing sample_sheet sample_hours 1
           [VStr "INC001"; VTime (mk_timestamp 2024 1 1 0 0 0); VNull]);
    vm_compute; reflexivity.
Defined.

(** X2.  A sheet without the column inc_resolved_at makes the Extractor
    raise KeyError for that column, whether or not inc_sys_created_on is
    there too: the resolved column is looked up first.  The statistics of
    the sheet are in the log by then, the error follows them, and no
    staging file is written. *)
Theorem extract_without_resolved_column (w : World) (df : DataFrame) :
  source_sheet w = Some df ->
  index_of "inc_resolved_at" (column_names df) = None ->
  extract_itsm_data w
  = (inl (KeyError "inc_resolved_at"),
     with_log (log w ++ sheet_statistics df
               ++ [(ERROR, ErrorInExtraction (KeyError "inc_resolved_at"))])
       w).
Proof.
  intros Hsheet Hcol.
  assert (Hres : resolution_time_hours df = inl (KeyError "inc_resolved_at"))
    by (unfold resolution_time_hours, getitem; now rewrite Hcol).
  unfold extract_itsm_data, extract_body, sheet_statistics. unfold_task.
  rewrite Hsheet. norm_log. rewrite Hres. norm_log. reflexivity.
Qed.

Lemma extract_without_resolved_column_sample :
  extract_itsm_data
    {| source_sheet :=
         Some {| df_columns := [("inc_number", object)];
                 df_rows := [[VStr "INC001"]] |};
       staging_writable := true;
       staging_csv := None;
       pg_up := true;
       itsm_raw_tickets := None;
       log := [] |}
  = (inl (KeyError "inc_resolved_at"),
     with_log
       ([] ++ sheet_statistics
                {| df_columns := [("inc_number", object)];
                   df_rows := [[VStr "INC001"]] |}
        ++ [(ERROR, ErrorInExtraction (KeyError "inc_resolved_at"))])
       {| source_sheet :=
            Some {| df_columns := [("inc_number", object)];
                    df_rows := [[VStr "INC001"]] |};
          staging_writable := true;
          staging_csv := None;
          pg_up := true;
          itsm_raw_tickets := None;
          log := [] |}).
Proof.
  apply extract_without_resolved_column; reflexivity.
Defined.

Lemma zip_with_length {A B C : Type} (f : A -> B -> C) :
  forall (la : list A) (lb : list B),
    List.length la = List.length lb ->
    List.length (zip_with f la lb) = List.length la.
Proof.
  induction la as [|a la IH]; intros [|b lb] H; simpl in *;
    try discriminate; [reflexivity|].
  f_equal. apply IH. lia.
Qed.


Lemma index_of_lt (name : string) :
  forall (names : list string) (i : nat),
    index_of name names = Some i -> (i < List.length names)%nat.
Proof.
  induction names as [|n names IH]; intros i H; simpl in H; [discriminate|].
  destruct (String.eqb name n).
  - injection H as <-. simpl. lia.
  - destruct (index_of name names) as [j|]; [|discriminate].
    injection H as <-. simpl. specialize (IH j eq_refl). lia.
Qed.

Lemma index_of_nth (name : string) :
  forall (names : list string) (i : nat),
    index_of name names = Some i -> nth_error names i = Some name.
Proof.
  induction names as [|n names IH]; intros i H; simpl in H; [discriminate|].
  destruct (String.eqb name n) eqn:E.
  - injection H as <-. apply String.eqb_eq in E. now subst.
  - destruct (index_of name names) as [j|]; [|discriminate].
    injection H as <-. simpl. now apply IH.
Qed.

Lemma column_names_setitem_new (df : DataFrame) (name : string) (dt : dtype)
  (series : list value) :
  index_of name (column_names df) = None ->
  column_names (setitem df name dt series) = column_names df ++ [name].
Proof.
  intros H. unfold setitem. rewrite H. unfold column_names. simpl.
  now rewrite map_app.
Qed.

Lemma map_fst_replace_nth (name : string) (dt : dtype) :
  forall (cols : list (string * dtype)) (i : nat),
    nth_error (map fst cols) i = Some name ->
    map fst (replace_nth i (name, dt) cols) = map fst cols.
Proof.
  induction cols as [|[n d] cols IH]; intros [|i] H; simpl in *;
    try discriminate.
  - injection H as ->. reflexivity.
  - f_equal. now apply IH.
Qed.

Lemma column_names_setitem_old (df : DataFrame) (name : string) (dt : dtype)
  (series : list value) (j : nat) :
  index_of name (column_names df) = Some j ->
  column_names (setitem df name dt series) = column_names df.
Proof.
  intros H. unfold setitem. rewrite H. unfold column_names. simpl.
  apply map_fst_replace_nth. now apply index_of_nth.
Qed.



(** X4.  The Extractor is idempotent on the staging file: run again after
    a run that returned, it returns again and writes the same file. *)
Theorem extract_twice_same_file (w w1 : World) :
  extract_itsm_data w = (inr tt, w1) ->
  exists w2,
    extract_itsm_data w1 = (inr tt, w2)
    /\ staging_csv w2 = staging_csv w1.
Proof.
  intros Hrun.
  pose proof (extract_all_or_raise w) as H.
  unfold extract_failure in H.
  destruct (source_sheet w) as [df|] eqn:Hsheet.
  2:{ destruct H as (earlier & H). rewrite H in Hrun. discriminate. }
  destruct (resolution_time_hours df) as [e|hours] eqn:Hres.
  { destruct H as (earlier & H). rewrite H in Hrun. discriminate. }
  destruct (staging_writable w) eqn:Hwr.
  2:{ destruct H as (earlier & H). rewrite H in Hrun. discriminate. }
  destruct H as (w' & H & df' & hours' & Hsheet' & Hres' & ->).
  rewrite H in Hrun. injection Hrun as <-.
  rewrite Hsheet in Hsheet'. injection Hsheet' as <-.
  rewrite Hres in Hres'. injection Hres' as <-.
  pose proof (extract_all_or_raise
                (with_log
                   (log w ++ [(INFO, Extracted (df_len df));
                              (INFO, Columns (column_names df));
                              (INFO, MissingData (missing_data df));
                              (INFO, SavedToStaging)])
                   (with_staging_csv
                      (to_csv (setitem df "resolution_time_hours" float64
                                 hours)) w))) as H2.
  unfold extract_failure in H2.
  cbn [with_log with_staging_csv source_sheet staging_writable] in H2.
  rewrite Hsheet, Hres, Hwr in H2.
  destruct H2 as (w2 & H2 & df2 & hours2 & Hs2 & Hr2 & ->).
  cbn [with_log with_staging_csv source_sheet] in Hs2.
  rewrite Hsheet in Hs2. injection Hs2 as <-.
  rewrite Hres in Hr2. injection Hr2 as <-.
  eexists. split; [exact H2|]. reflexivity.
Qed.

Lemma extract_twice_same_file_sample :
  exists w2,
    extract_itsm_data (snd (extract_itsm_data fresh_world)) = (inr tt, w2)
    /\ staging_csv w2 = staging_csv (snd (extract_itsm_data fresh_world)).
Proof.
  apply (extract_twice_same_file fresh_world).
  vm_compute. reflexivity.
Defined.

(** ** What each task leaves alone *)

(** X5.  Whatever the outcome, each task writes only what is its own: the
    Extractor neither the sheet nor the table, the Schema Initializer
    neither file nor log, the Loader neither the sheet nor the staging
    file, and the Quality Checker nothing but its log records; and the
    log is only ever appended to. *)
Theorem tasks_write_only_their_own (w : World) :
  (source_sheet (snd (extract_itsm_data w)) = source_sheet w
   /\ itsm_raw_tickets (snd (extract_itsm_data w)) = itsm_raw_tickets w
   /\ log_grows w (snd (extract_itsm_data w)))
  /\ (source_sheet (snd (create_staging_table w)) = source_sheet w
      /\ staging_csv (snd (create_staging_table w)) = staging_csv w
      /\ log (snd (create_staging_table w)) = log w)
  /\ (source_sheet (snd (load_to_postgres w)) = source_sheet w
      /\ staging_csv (snd (load_to_postgres w)) = staging_csv w
      /\ log_grows w (snd (load_to_postgres w)))
  /\ (same_data w (snd (run_data_quality_checks w))
      /\ log_grows w (snd (run_data_quality_checks w))).
Proof.
  split; [|split; [|split]].
  - pose proof (extract_all_or_raise w) as H.
    destruct (extract_failure w) as [e|].
    + destruct H as (earlier & ->). cbn [snd]. repeat split.
      eexists. cbn [with_log log]. reflexivity.
    + destruct H as (w' & -> & df & hours & _ & _ & ->). cbn [snd].
      repeat split. eexists. cbn [with_log log]. reflexivity.
  - unfold create_staging_table, postgres_operator.
    destruct (pg_up w); cbn [snd]; repeat split.
  - pose proof (load_all_or_raise w) as H.
    destruct (load_failure w) as [e|].
    + destruct H as (earlier & ->). cbn [snd]. repeat split.
      eexists. cbn [with_log log]. reflexivity.
    + destruct H as (w' & -> & file & df & _ & _ & ->). cbn [snd].
      repeat split. eexists. cbn [with_log log]. reflexivity.
  - pose proof (quality_all_or_raise w) as H.
    destruct (quality_failure w) as [e|].
    + destruct H as (earlier & ->). cbn [snd]. split.
      * repeat split.
      * eexists. cbn [with_log log]. reflexivity.
    + destruct H as (w' & -> & d & o & _ & _ & ->). cbn [snd]. split.
      * repeat split.
      * eexists. cbn [with_log log]. reflexivity.
Qed.

(** ** The Quality Checker and the shape of the table *)

(** X6.  Whether the Quality Checker returns depends on the connection and
    on the columns of the table, never on its rows: it returns exactly when
    the connection opens and the table exists with a column inc_number and
    a column resolution_time_hours of a numeric type. *)
Theorem quality_checks_return_iff_schema (w : World) :
  fst (run_data_quality_checks w) = inr tt
  <-> pg_up w = true
      /\ exists t i ty j ty',
           itsm_raw_tickets w = Some t
           /\ lookup_column "inc_number" (tbl_columns t) = Some (i, ty)
           /\ lookup_column "resolution_time_hours" (tbl_columns t)
              = Some (j, ty')
           /\ is_numeric_type ty' = true.
Proof.
  pose proof (quality_all_or_raise w) as H. split.
  - intros Hrun. destruct (quality_failure w) as [e|] eqn:Hf.
    + destruct H as (earlier & H). rewrite H in Hrun. discriminate.
    + clear H Hrun. unfold quality_failure in Hf.
      destruct (pg_up w); [|discriminate]. split; [reflexivity|].
      destruct (itsm_raw_tickets w) as [t|]; [|discriminate].
      unfold duplicate_query, outlier_query in Hf.
      destruct (lookup_column "inc_number" (tbl_columns t)) as [[i ty]|]
        eqn:Hi; [|discriminate].
      destruct (lookup_column "resolution_time_hours" (tbl_columns t))
        as [[j ty']|] eqn:Hj; [|discriminate].
      destruct (is_numeric_type ty') eqn:Hnum; [|discriminate].
      exists t, i, ty, j, ty'. auto.
  - intros (Hup & t & i & ty & j & ty' & Ht & Hi & Hj & Hnum).
    assert (Hf : quality_failure w = None).
    { unfold quality_failure, duplicate_query, outlier_query.
      now rewrite Hup, Ht, Hi, Hj, Hnum. }
    rewrite Hf in H. destruct H as (w' & -> & _). reflexivity.
Qed.

Lemma total_size_bump (k : value) (groups : list (value * nat)) :
  total_size (bump k groups) = S (total_size groups).
Proof.
  induction groups as [|[k' n] groups IH]; simpl; [reflexivity|].
  destruct (value_eq_dec k k'); simpl; [reflexivity|]. rewrite IH. lia.
Qed.

Lemma total_size_fold (keys : list value) :
  forall groups,
    total_size (fold_left (fun g k => bump k g) keys groups)
    = (List.length keys + total_size groups)%nat.
Proof.
  induction keys as [|k keys IH]; intros groups; simpl; [reflexivity|].
  rewrite IH, total_size_bump. lia.
Qed.

Lemma duplicated_groups_bound (groups : list (value * nat)) :
  (2 * List.length (filter (fun g => (1 <? snd g)%nat) groups)
   <= total_size groups)%nat.
Proof.
  induction groups as [|[k n] groups IH]; simpl; [lia|].
  destruct (1 <? n)%nat eqn:E; simpl.
  - apply Nat.ltb_lt in E. lia.
  - lia.
Qed.

(** X7.  The two counts are bounded by the table: every duplicated
    incident number takes at least two rows, so twice the duplicate count
    is at most the number of rows, and the outlier count is at most the
    number of rows. *)
Theorem quality_counts_bounded (t : Table) :
  (forall d, duplicate_query (Some t) = inr d ->
             (2 * d <= List.length (tbl_rows t))%nat)
  /\ (forall o, outlier_query (Some t) = inr o ->
                (o <= List.length (tbl_rows t))%nat).
Proof.
  split.
  - unfold duplicate_query. intros d H.
    destruct (lookup_column _ _) as [[i ty]|]; [|discriminate].
    injection H as <-.
    eapply Nat.le_trans; [apply duplicated_groups_bound|].
    unfold group_by_count. rewrite total_size_fold. simpl.
    rewrite length_map. lia.
  - unfold outlier_query. intros o H.
    destruct (lookup_column _ _) as [[i ty]|]; [|discriminate].
    destruct (is_numeric_type ty); [|discriminate].
    injection H as <-. apply filter_length_le.
Qed.






(** ** The scheduler has no choice *)

Lemma can_run_first_k (k : nat) (t : operator) :
  nth_error chain k = Some t -> can_run (firstn k chain) t = true.
Proof.
  do 6 (destruct k as [|k];
        [intros H; injection H as <-; vm_compute; reflexivity|]).
  destruct k; discriminate.
Qed.

(** X10.  In every state a DAG run can reach, either all six tasks have
    succeeded and none can run, or exactly one task can run: the scheduler
    never has two tasks of this DAG to run at once and, short of the end,
    never has none. *)
Theorem scheduler_runs_one_task_at_a_time (s : list operator) :
  reachable s ->
  (s = chain /\ forall t, can_run s t = false)
  \/ (exists t,
        can_run s t = true
        /\ forall u, can_run s u = true -> u = t).
Proof.
  intros Hs. destruct (reachable_prefix s Hs) as (k & ->).
  destruct (nth_error chain k) as [t|] eqn:Hk.
  - right. exists t. split; [now apply can_run_first_k|].
    intros u Hu. apply can_run_next in Hu. congruence.
  - left. apply nth_error_None in Hk. split.
    + now apply firstn_all2.
    + intros t. destruct (can_run (firstn k chain) t) eqn:E; [|reflexivity].
      apply can_run_next in E. apply nth_error_None in Hk. congruence.
Qed.

Lemma scheduler_runs_one_task_at_a_time_sample :
  ([extract_data_task; create_staging_table_task] = chain
   /\ forall t,
        can_run [extract_data_task; create_staging_table_task] t = false)
  \/ (exists t,
        can_run [extract_data_task; create_staging_table_task] t = true
        /\ forall u,
             can_run [extract_data_task; create_staging_table_task] u = true ->
             u = t).
Proof.
  apply scheduler_runs_one_task_at_a_time.
  apply reach_step with (s := [extract_data_task]).
  - apply reach_step with (s := []); [apply reach_start|].
    apply (run_task [] extract_data_task). reflexivity.
  - apply (run_task [extract_data_task] create_staging_table_task).
    reflexivity.
Defined.

(** ** The Schema Initializer before the first load *)

(** X11.  Where the table does not exist yet, the Schema Initializer makes
    it, with the sixteen declared columns and no row, and the Quality
    Checker run on that table returns without a warning: it has nothing to
    count. *)
Theorem initialized_table_passes_checks (w : World) :
  pg_up w = true ->
  itsm_raw_tickets w = None ->
  exists w1 w2,
    create_staging_table w = (inr tt, w1)
    /\ itsm_raw_tickets w1
       = Some {| tbl_columns := staging_schema; tbl_rows := [] |}
    /\ List.length staging_schema = 16%nat
    /\ run_data_quality_checks w1 = (inr tt, w2)
    /\ log w2 = log w ++ [(INFO, ChecksCompleted)].
Proof.
  intros Hup Hnone.
  unfold create_staging_table, postgres_operator. rewrite Hup, Hnone.
  eexists. eexists. split; [reflexivity|].
  split; [reflexivity|]. split; [reflexivity|].
  split.
  - apply (quality_checks_return _ 0 0); [exact Hup|reflexivity|reflexivity].
  - reflexivity.
Qed.

Lemma initialized_table_passes_checks_sample :
  exists w1 w2,
    create_staging_table fresh_world = (inr tt, w1)
    /\ itsm_raw_tickets w1
       = Some {| tbl_columns := staging_schema; tbl_rows := [] |}
    /\ List.length staging_schema = 16%nat
    /\ run_data_quality_checks w1 = (inr tt, w2)
    /\ log w2 = log fresh_world ++ [(INFO, ChecksCompleted)].
Proof.
  apply (initialized_table_passes_checks fresh_world); reflexivity.
Defined.

(** ** The four staging tasks together *)

Lemma replace_nth_length {A : Type} (x : A) :
  forall (l : list A) (i : nat),
    List.length (replace_nth i x l) = List.length l.
Proof.
  induction l as [|a l IH]; intros [|i]; simpl; auto.
Qed.

Lemma replace_nth_nth {A : Type} (x d : A) :
  forall (l : list A) (i : nat),
    (i < List.length l)%nat -> nth i (replace_nth i x l) d = x.
Proof.
  induction l as [|a l IH]; intros [|i] H; simpl in *; try lia; auto.
  apply IH. lia.
Qed.

Lemma zip_with_In {A B C : Type} (f : A -> B -> C) :
  forall (la : list A) (lb : list B) (c : C),
    In c (zip_with f la lb) ->
    exists a b, In a la /\ In b lb /\ c = f a b.
Proof.
  induction la as [|a la IH]; intros [|b lb] c H; simpl in H;
    try contradiction.
  destruct H as [<-|H].
  - exists a, b. simpl. auto.
  - destruct (IH lb c H) as (a' & b' & Ha & Hb & ->).
    exists a', b'. simpl. auto.
Qed.

(** Assigning a column of the right length keeps a frame rectangular. *)
Lemma setitem_rectangular (df : DataFrame) (name : string) (dt : dtype)
  (series : list value) :
  rectangular df ->
  rectangular (setitem df name dt series).
Proof.
  unfold rectangular, setitem. intros Hrect.
  rewrite Forall_forall in Hrect.
  destruct (index_of name (column_names df)) as [j|];
    cbn [df_columns df_rows]; apply Forall_forall; intros row Hrow;
    apply zip_with_In in Hrow as (r & v & Hr & _ & ->).
  - rewrite !replace_nth_length. now apply Hrect.
  - rewrite !length_app. simpl. rewrite (Hrect r Hr). reflexivity.
Qed.

Lemma setitem_rows (df : DataFrame) (name : string) (dt : dtype)
  (series : list value) :
  List.length series = df_len df ->
  df_len (setitem df name dt series) = df_len df.
Proof.
  unfold setitem, df_len. intros H.
  destruct (index_of name (column_names df)); cbn [df_rows];
    apply zip_with_length; lia.
Qed.

Lemma column_names_length (df : DataFrame) :
  List.length (column_names df) = List.length (df_columns df).
Proof. unfold column_names. apply length_map. Qed.

(** Reading back what to_csv wrote: a rectangular frame with a column
    comes back as the frame of its header and fields. *)
Lemma read_csv_to_csv (df : DataFrame) :
  rectangular df ->
  column_names df <> [] ->
  read_csv (to_csv df)
  = inr (frame_of_records (column_names df)
           (map (map field_of_value) (df_rows df))).
Proof.
  intros Hrect Hcols. unfold read_csv, to_csv. cbn [csv_header csv_records].
  destruct (column_names df) as [|c cs] eqn:Hnames; [congruence|].
  rewrite <- Hnames.
  replace (existsb _ _) with false; [reflexivity|].
  symmetry. apply not_true_is_false. intros Hex.
  apply existsb_exists in Hex as (r & Hr & Hlong).
  apply in_map_iff in Hr as (row & <- & Hrow).
  unfold rectangular in Hrect. rewrite Forall_forall in Hrect.
  apply Nat.ltb_lt in Hlong.
  rewrite length_map, (Hrect row Hrow), column_names_length in Hlong. lia.
Qed.

(** *** Looking a column up in the table made from a CSV frame *)

Lemma lookup_column_index (name : string) :
  forall (cols : list (string * sqltype)) (i : nat),
    index_of name (map fst cols) = Some i ->
    exists ty, lookup_column name cols = Some (i, ty)
               /\ nth_error cols i = Some (name, ty).
Proof.
  induction cols as [|[n ty] cols IH]; intros i H; simpl in H;
    [discriminate|].
  simpl. destruct (String.eqb name n) eqn:E.
  - injection H as <-. apply String.eqb_eq in E. subst.
    exists ty. auto.
  - destruct (index_of name (map fst cols)) as [j|] eqn:Hj; [|discriminate].
    injection H as <-. destruct (IH j eq_refl) as (ty' & Hl & Hn).
    exists ty'. rewrite Hl. auto.
Qed.

Lemma combine_seq_nth_error {A : Type} :
  forall (l : list A) (a i : nat) (x : A),
    nth_error l i = Some x ->
    nth_error (combine (seq a (List.length l)) l) i = Some ((a + i)%nat, x).
Proof.
  induction l as [|y l IH]; intros a [|i] x H; simpl in *; try discriminate.
  - injection H as <-. now rewrite Nat.add_0_r.
  - rewrite (IH (S a) i x H). f_equal. f_equal. lia.
Qed.

Lemma combine_seq_snd {A : Type} :
  forall (l : list A) (a : nat),
    map snd (combine (seq a (List.length l)) l) = l.
Proof.
  induction l as [|y l IH]; intros a; simpl; [reflexivity|].
  now rewrite IH.
Qed.

Lemma combine_map_fst {A B : Type} :
  forall (l : list A) (l' : list B),
    List.length l = List.length l' -> map fst (combine l l') = l.
Proof.
  induction l as [|a l IH]; intros [|b l'] H; simpl in *;
    try discriminate; [reflexivity|].
  f_equal. apply IH. lia.
Qed.

Lemma combine_nth_error {A B : Type} :
  forall (l : list A) (l' : list B) (i : nat) (a : A) (b : B),
    nth_error l i = Some a -> nth_error l' i = Some b ->
    nth_error (combine l l') i = Some (a, b).
Proof.
  induction l as [|x l IH]; intros [|y l'] [|i] a b Ha Hb; simpl in *;
    try discriminate.
  - injection Ha as <-. injection Hb as <-. reflexivity.
  - now apply IH.
Qed.

Lemma map_seq_nth_error {A : Type} (f : nat -> A) (n i : nat) :
  (i < n)%nat -> nth_error (map f (seq 0 n)) i = Some (f i).
Proof.
  intros H. rewrite nth_error_map.
  rewrite (nth_error_nth' (seq 0 n) O) by (rewrite length_seq; exact H).
  rewrite seq_nth by exact H. reflexivity.
Qed.

Lemma frame_of_records_names (header : list string)
  (records : list (list csv_field)) :
  column_names (frame_of_records header records) = header.
Proof.
  unfold column_names, frame_of_records. cbn [df_columns].
  apply combine_map_fst. now rewrite !length_map, length_seq.
Qed.

Lemma table_of_frame_names (df : DataFrame) :
  map fst (tbl_columns (table_of_frame df)) = column_names df.
Proof.
  unfold table_of_frame, column_names. cbn [tbl_columns].
  rewrite map_map. cbn [fst].
  rewrite <- (combine_seq_snd (df_columns df) 0) at 3.
  rewrite map_map. reflexivity.
Qed.

(** The type the table gets for a column of the file, by its place in the
    header: the type to_sql makes of the dtype read_csv infers. *)
Lemma table_of_csv_column (header : list string)
  (records : list (list csv_field)) (name : string) (i : nat) :
  index_of name header = Some i ->
  exists cells,
    lookup_column name
      (tbl_columns (table_of_frame (frame_of_records header records)))
    = Some (i, sql_type_of_column (infer_dtype (csv_column records i)) cells)
    /\ (records = [] -> cells = []).
Proof.
  intros Hidx.
  set (df := frame_of_records header records).
  assert (Hnames : index_of name (map fst (tbl_columns (table_of_frame df)))
                   = Some i)
    by (rewrite table_of_frame_names; unfold df;
        now rewrite frame_of_records_names).
  destruct (lookup_column_index name _ i Hnames) as (ty & Hlook & Hnth).
  pose proof (index_of_lt name header i Hidx) as Hlt.
  assert (Hcol : nth_error (df_columns df) i
                 = Some (name, infer_dtype (csv_column records i))).
  { unfold df, frame_of_records. cbn [df_columns].
    apply combine_nth_error; [now apply index_of_nth|].
    rewrite map_map. cbn [fst snd].
    apply (map_seq_nth_error
             (fun x => infer_dtype (csv_column records x))). exact Hlt. }
  unfold table_of_frame in Hnth. cbn [tbl_columns] in Hnth.
  rewrite nth_error_map in Hnth.
  rewrite (combine_seq_nth_error (df_columns df) 0 i _ Hcol) in Hnth.
  cbn [option_map fst snd] in Hnth. injection Hnth as <-.
  eexists. split; [exact Hlook|].
  intros ->. reflexivity.
Qed.

Lemma index_of_app_l (name : string) :
  forall (l l' : list string) (i : nat),
    index_of name l = Some i -> index_of name (l ++ l') = Some i.
Proof.
  induction l as [|n l IH]; intros l' i H; simpl in *; [discriminate|].
  destruct (String.eqb name n); [exact H|].
  destruct (index_of name l) as [j|]; [|discriminate].
  now rewrite (IH l' j eq_refl).
Qed.

Lemma index_of_app_new (name : string) :
  forall l : list string,
    index_of name l = None ->
    index_of name (l ++ [name]) = Some (List.length l).
Proof.
  induction l as [|n l IH]; intros H; simpl in *.
  - now rewrite String.eqb_refl.
  - destruct (String.eqb name n); [discriminate|].
    destruct (index_of name l); [discriminate|].
    now rewrite IH.
Qed.

Lemma zip_with_replace_column (j : nat) :
  forall (rows : list (list value)) (series : list value),
    List.length series = List.length rows ->
    Forall (fun row => (j < List.length row)%nat) rows ->
    map (fun row => cell row j)
      (zip_with (fun row v => replace_nth j v row) rows series)
    = series.
Proof.
  induction rows as [|row rows IH]; intros [|v series] Hlen Hall;
    simpl in *; try discriminate; [reflexivity|].
  inversion Hall as [|? ? Hrow Hrest]; subst.
  unfold cell at 1. rewrite replace_nth_nth by exact Hrow.
  f_equal. apply IH; [lia|exact Hrest].
Qed.

Lemma zip_with_append_column (n : nat) :
  forall (rows : list (list value)) (series : list value),
    List.length series = List.length rows ->
    Forall (fun row => List.length row = n) rows ->
    map (fun row => cell row n)
      (zip_with (fun row v => row ++ [v]) rows series)
    = series.
Proof.
  induction rows as [|row rows IH]; intros [|v series] Hlen Hall;
    simpl in *; try discriminate; [reflexivity|].
  inversion Hall as [|? ? Hrow Hrest]; subst.
  unfold cell at 1. rewrite app_nth2 by lia.
  rewrite Nat.sub_diag. simpl. f_equal. apply IH; [lia|exact Hrest].
Qed.

(** After [df[name] = series] the column [name] is the series. *)
Lemma setitem_column (df : DataFrame) (name : string) (dt : dtype)
  (series : list value) :
  rectangular df ->
  List.length series = df_len df ->
  exists i,
    index_of name (column_names (setitem df name dt series)) = Some i
    /\ map (fun row => cell row i) (df_rows (setitem df name dt series))
       = series.
Proof.
  intros Hrect Hlen. unfold rectangular in Hrect. unfold df_len in Hlen.
  destruct (index_of name (column_names df)) as [j|] eqn:Hj.
  - exists j. split.
    + now rewrite (column_names_setitem_old df name dt series j Hj).
    + unfold setitem. rewrite Hj. cbn [df_rows].
      apply zip_with_replace_column; [exact Hlen|].
      apply index_of_lt in Hj. rewrite column_names_length in Hj.
      eapply Forall_impl; [|exact Hrect]. simpl. intros row ->. exact Hj.
  - exists (List.length (df_columns df)). split.
    + rewrite (column_names_setitem_new df name dt series Hj).
      rewrite <- column_names_length. now apply index_of_app_new.
    + unfold setitem. rewrite Hj. cbn [df_rows].
      apply zip_with_append_column; [exact Hlen|exact Hrect].
Qed.

Lemma setitem_keeps_column (df : DataFrame) (name other : string)
  (dt : dtype) (series : list value) :
  index_of other (column_names df) <> None ->
  index_of other (column_names (setitem df name dt series)) <> None.
Proof.
  intros H.
  destruct (index_of other (column_names df)) as [i|] eqn:Hi; [|congruence].
  destruct (index_of name (column_names df)) as [j|] eqn:Hj.
  - rewrite (column_names_setitem_old df name dt series j Hj). congruence.
  - rewrite (column_names_setitem_new df name dt series Hj).
    rewrite (index_of_app_l other _ _ i Hi). discriminate.
Qed.

(** The fields of column [i] of the file to_csv writes. *)
Lemma csv_column_to_csv (df : DataFrame) (i : nat) :
  csv_column (map (map field_of_value) (df_rows df)) i
  = map field_of_value (map (fun row => cell row i) (df_rows df)).
Proof.
  unfold csv_column, cell. rewrite !map_map.
  apply map_ext. intros row.
  change FNa with (field_of_value VNull). apply map_nth.
Qed.

(** A duration is missing or a float, nothing else. *)
Lemma resolution_time_hours_cells (df : DataFrame) (hours : list value) :
  resolution_time_hours df = inr hours ->
  Forall (fun v => is_number_or_na (field_of_value v) = true
                   /\ is_int_field (field_of_value v) = false) hours.
Proof.
  unfold resolution_time_hours. intros H.
  destruct (getitem df "inc_resolved_at"); [discriminate|]. simpl in H.
  destruct (to_datetime _); [discriminate|]. simpl in H.
  destruct (getitem df "inc_sys_created_on"); [discriminate|]. simpl in H.
  destruct (to_datetime _); [discriminate|]. simpl in H.
  destruct (sub_datetimes _ _) as [|ds]; [discriminate|]. simpl in H.
  injection H as <-. apply Forall_forall. intros v Hv.
  apply in_map_iff in Hv as (d & <- & _).
  destruct d as [ns|]; simpl; [|auto].
  destruct (F64.is_nan _); auto.
Qed.

Lemma infer_dtype_durations (hours : list value) :
  hours <> [] ->
  Forall (fun v => is_number_or_na (field_of_value v) = true
                   /\ is_int_field (field_of_value v) = false) hours ->
  infer_dtype (map field_of_value hours) = float64.
Proof.
  intros Hne Hall. destruct hours as [|h hours]; [congruence|].
  unfold infer_dtype. cbn [map].
  inversion Hall as [|? ? [Hnum Hint] Hrest]; subst.
  cbn [forallb]. rewrite Hint, Hnum. cbn [andb].
  replace (forallb is_number_or_na (map field_of_value hours)) with true;
    [reflexivity|].
  symmetry. apply forallb_forall. intros f Hf.
  apply in_map_iff in Hf as (v & <- & Hv).
  rewrite Forall_forall in Hrest. now apply Hrest.
Qed.

(** Extractor, Schema Initializer and Loader in a row: with sheet, staging
    path and database in order they all return, and what is left to run is
    the Quality Checker, on the table made from the reloaded frame. *)
Lemma staging_tasks_up_to_checks (w : World) (df : DataFrame)
  (hours : list value) :
  source_sheet w = Some df ->
  rectangular df ->
  resolution_time_hours df = inr hours ->
  staging_writable w = true ->
  pg_up w = true ->
  exists w3,
    staging_tasks w = run_data_quality_checks w3
    /\ pg_up w3 = true
    /\ itsm_raw_tickets w3 = Some (table_of_frame (reloaded_frame df hours))
    /\ log w3 = log w ++ sheet_statistics df
                ++ [(INFO, SavedToStaging); (INFO, Loaded (df_len df))].
Proof.
  intros Hsheet Hrect Hres Hwr Hup.
  pose proof (resolution_time_hours_length df hours Hres) as Hlen.
  set (df' := setitem df "resolution_time_hours" float64 hours).
  assert (Hrect' : rectangular df') by now apply setitem_rectangular.
  assert (Hnames' : column_names df' <> []).
  { destruct (setitem_column df "resolution_time_hours" float64 hours
                Hrect Hlen) as (i & Hi & _).
    fold df' in Hi. intros E. rewrite E in Hi. discriminate. }
  assert (Hread : read_csv (to_csv df') = inr (reloaded_frame df hours))
    by exact (read_csv_to_csv df' Hrect' Hnames').
  assert (Hrows : df_len (reloaded_frame df hours) = df_len df).
  { rewrite (read_csv_rows _ _ Hread). unfold to_csv. cbn [csv_records].
    rewrite length_map. now apply setitem_rows. }
  pose proof (extract_all_or_raise w) as Hex.
  unfold extract_failure in Hex. rewrite Hsheet, Hres, Hwr in Hex.
  destruct Hex as (w1 & Hex & df0 & hours0 & Hs0 & Hr0 & ->).
  rewrite Hsheet in Hs0. injection Hs0 as <-.
  rewrite Hres in Hr0. injection Hr0 as <-. fold df' in Hex.
  unfold staging_tasks, bind. rewrite Hex.
  unfold create_staging_table, postgres_operator.
  cbn [with_log with_staging_csv pg_up itsm_raw_tickets]. rewrite Hup.
  match goal with
  | |- context [load_to_postgres ?w2] =>
      rewrite (load_to_postgres_runs w2 (to_csv df')
                 (reloaded_frame df hours) eq_refl Hread Hup)
  end.
  eexists. split; [reflexivity|].
  cbn [with_log with_table with_staging_csv pg_up itsm_raw_tickets log].
  split; [exact Hup|]. split; [reflexivity|].
  rewrite Hrows. unfold sheet_statistics. rewrite <- !app_assoc. reflexivity.
Qed.

(** The duration column of the table after a load of the Extractor's
    file: its place, and its type by the number of rows of the sheet. *)
Lemma reloaded_duration_column (df : DataFrame) (hours : list value) :
  rectangular df ->
  resolution_time_hours df = inr hours ->
  exists i,
    lookup_column "resolution_time_hours"
      (tbl_columns (table_of_frame (reloaded_frame df hours)))
    = Some (i, if Nat.eqb (df_len df) 0 then TEXT else DOUBLE_PRECISION).
Proof.
  intros Hrect Hres.
  pose proof (resolution_time_hours_length df hours Hres) as Hlen.
  destruct (setitem_column df "resolution_time_hours" float64 hours
              Hrect Hlen) as (i & Hi & Hcol).
  set (df' := setitem df "resolution_time_hours" float64 hours) in *.
  destruct (table_of_csv_column (column_names df')
              (map (map field_of_value) (df_rows df'))
              "resolution_time_hours" i Hi) as (cells & Hlook & Hempty).
  exists i. unfold reloaded_frame. fold df'. rewrite Hlook.
  rewrite csv_column_to_csv, Hcol. f_equal. f_equal.
  destruct hours as [|h hours'].
  - assert (Hzero : df_len df = O) by (rewrite <- Hlen; reflexivity).
    assert (Hrows : df_rows df' = []).
    { apply length_zero_iff_nil. change (df_len df' = O).
      unfold df'. rewrite setitem_rows by exact Hlen. exact Hzero. }
    rewrite Hzero. rewrite Hrows in Hempty.
    now rewrite (Hempty eq_refl).
  - assert (Hpos : df_len df = S (List.length hours'))
      by (rewrite <- Hlen; reflexivity).
    rewrite Hpos. cbn [Nat.eqb].
    rewrite infer_dtype_durations;
      [reflexivity|discriminate
      |exact (resolution_time_hours_cells df _ Hres)].
Qed.

Lemma reloaded_other_column (df : DataFrame) (hours : list value)
  (name : string) :
  index_of name (column_names df) <> None ->
  exists i ty,
    lookup_column name
      (tbl_columns (table_of_frame (reloaded_frame df hours)))
    = Some (i, ty).
Proof.
  intros H.
  pose proof (setitem_keeps_column df "resolution_time_hours" name float64
                hours H) as H'.
  set (df' := setitem df "resolution_time_hours" float64 hours) in *.
  destruct (index_of name (column_names df')) as [i|] eqn:Hi; [|congruence].
  destruct (table_of_csv_column (column_names df')
              (map (map field_of_value) (df_rows df')) name i Hi)
    as (cells & Hlook & _).
  exists i. eexists. unfold reloaded_frame. fold df'. exact Hlook.
Qed.

Lemma reloaded_rows (df : DataFrame) (hours : list value) :
  resolution_time_hours df = inr hours ->
  List.length (tbl_rows (table_of_frame (reloaded_frame df hours)))
  = df_len df.
Proof.
  intros Hres. rewrite table_of_frame_rows.
  unfold reloaded_frame, frame_of_records, df_len. cbn [df_rows].
  rewrite !length_map.
  apply (setitem_rows df "resolution_time_hours" float64 hours).
  now apply resolution_time_hours_length.
Qed.

(** X12.  From a sheet with at least one row, with the two timestamp
    columns readable and a column inc_number, and with the staging path
    writable and the database reachable, the four staging tasks all
    return: the table ends with one row per row of the sheet and with
    resolution_time_hours as a DOUBLE PRECISION column, which is what lets
    the outlier query run. *)
Theorem staging_tasks_return (w : World) (df : DataFrame)
  (hours : list value) :
  source_sheet w = Some df ->
  rectangular df ->
  df_rows df <> [] ->
  resolution_time_hours df = inr hours ->
  index_of "inc_number" (column_names df) <> None ->
  staging_writable w = true ->
  pg_up w = true ->
  exists w' t i,
    staging_tasks w = (inr tt, w')
    /\ itsm_raw_tickets w' = Some t
    /\ List.length (tbl_rows t) = df_len df
    /\ lookup_column "resolution_time_hours" (tbl_columns t)
       = Some (i, DOUBLE_PRECISION).
Proof.
  intros Hsheet Hrect Hrows Hres Hnum Hwr Hup.
  destruct (staging_tasks_up_to_checks w df hours Hsheet Hrect Hres Hwr Hup)
    as (w3 & Hrun & Hup3 & Ht3 & _).
  destruct (reloaded_duration_column df hours Hrect Hres) as (i & Hdur).
  assert (Hne : Nat.eqb (df_len df) 0 = false).
  { apply Nat.eqb_neq. unfold df_len.
    destruct (df_rows df); [congruence|discriminate]. }
  rewrite Hne in Hdur.
  destruct (reloaded_other_column df hours "inc_number" Hnum)
    as (j & ty & Hinc).
  set (t := table_of_frame (reloaded_frame df hours)) in *.
  assert (Hd : exists d, duplicate_query (itsm_raw_tickets w3) = inr d)
    by (rewrite Ht3; unfold duplicate_query; rewrite Hinc; eauto).
  assert (Ho : exists o, outlier_query (itsm_raw_tickets w3) = inr o)
    by (rewrite Ht3; unfold outlier_query; rewrite Hdur; simpl; eauto).
  destruct Hd as (d & Hd). destruct Ho as (o & Ho).
  rewrite (quality_checks_return w3 d o Hup3 Hd Ho) in Hrun.
  eexists. exists t, i. split; [exact Hrun|].
  cbn [with_log itsm_raw_tickets]. split; [exact Ht3|].
  split; [now apply reloaded_rows|exact Hdur].
Qed.

Lemma staging_tasks_return_sample :
  exists w' t i,
    staging_tasks fresh_world = (inr tt, w')
    /\ itsm_raw_tickets w' = Some t
    /\ List.length (tbl_rows t) = df_len sample_sheet
    /\ lookup_column "resolution_time_hours" (tbl_columns t)
       = Some (i, DOUBLE_PRECISION).
Proof.
  apply (staging_tasks_return fresh_world sample_sheet sample_hours);
    try (vm_compute; reflexivity).
  - repeat constructor.
  - discriminate.
  - discriminate.
Defined.

Lemma resolution_time_hours_no_rows (df : DataFrame) :
  df_rows df = [] ->
  index_of "inc_resolved_at" (column_names df) <> None ->
  index_of "inc_sys_created_on" (column_names df) <> None ->
  resolution_time_hours df = inr [].
Proof.
  intros Hrows Hr Hc. unfold resolution_time_hours, getitem.
  destruct (index_of "inc_resolved_at" _); [|congruence].
  destruct (index_of "inc_sys_created_on" _); [|congruence].
  rewrite Hrows. reflexivity.
Qed.

(** X13.  From a sheet that has the columns but no row, Extractor, Schema
    Initializer and Loader return, the Loader logging 0 records, and the
    Quality Checker raises: the header-only file gives the table text
    columns only, the duplicate query answers 0, and the outlier query is
    rejected for comparing a text column with an integer. *)
Theorem empty_sheet_fails_checks (w : World) (df : DataFrame) :
  source_sheet w = Some df ->
  df_rows df = [] ->
  index_of "inc_resolved_at" (column_names df) <> None ->
  index_of "inc_sys_created_on" (column_names df) <> None ->
  index_of "inc_number" (column_names df) <> None ->
  staging_writable w = true ->
  pg_up w = true ->
  exists w',
    staging_tasks w = (inl (UndefinedFunction "> integer"), w')
    /\ row_count (itsm_raw_tickets w') = O
    /\ log w'
       = log w ++ sheet_statistics df
         ++ [(INFO, SavedToStaging); (INFO, Loaded 0);
             (ERROR, ErrorInQualityChecks (UndefinedFunction "> integer"))].
Proof.
  intros Hsheet Hrows Hr Hc Hnum Hwr Hup.
  pose proof (resolution_time_hours_no_rows df Hrows Hr Hc) as Hres.
  assert (Hrect : rectangular df)
    by (unfold rectangular; rewrite Hrows; constructor).
  assert (Hlen : df_len df = O) by (unfold df_len; now rewrite Hrows).
  destruct (staging_tasks_up_to_checks w df [] Hsheet Hrect Hres Hwr Hup)
    as (w3 & Hrun & Hup3 & Ht3 & Hlog3).
  destruct (reloaded_duration_column df [] Hrect Hres) as (i & Hdur).
  rewrite Hlen in Hdur. cbn [Nat.eqb] in Hdur.
  destruct (reloaded_other_column df [] "inc_number" Hnum)
    as (j & ty & Hinc).
  pose proof (reloaded_rows df [] Hres) as Hnrows. rewrite Hlen in Hnrows.
  apply length_zero_iff_nil in Hnrows.
  set (t := table_of_frame (reloaded_frame df [])) in *.
  assert (Hd : duplicate_query (itsm_raw_tickets w3) = inr O).
  { rewrite Ht3. unfold duplicate_query. rewrite Hinc.
    destruct (tbl_rows t); [reflexivity|discriminate Hnrows]. }
  assert (Ho : outlier_query (itsm_raw_tickets w3)
               = inl (UndefinedFunction "> integer"))
    by (rewrite Ht3; unfold outlier_query; rewrite Hdur; reflexivity).
  assert (Hf : quality_failure w3 = Some (UndefinedFunction "> integer"))
    by (unfold quality_failure; now rewrite Hup3, Hd, Ho).
  rewrite (quality_checks_raise w3 _ Hf) in Hrun.
  eexists. split; [exact Hrun|].
  cbn [with_log itsm_raw_tickets log]. split.
  - rewrite Ht3. unfold row_count.
    destruct (tbl_rows t); [reflexivity|discriminate Hnrows].
  - unfold warned_before_failure. rewrite Hup3, Hd, Hlog3, Hlen.
    simpl. rewrite <- !app_assoc. reflexivity.
Qed.

Lemma empty_sheet_fails_checks_sample :
  exists w',
    staging_tasks
      {| source_sheet :=
           Some {| df_columns := df_columns sample_sheet; df_rows := [] |};
         staging_writable := true;
         staging_csv := None;
         pg_up := true;
         itsm_raw_tickets := None;
         log := [] |}
    = (inl (UndefinedFunction "> integer"), w')
    /\ row_count (itsm_raw_tickets w') = O
    /\ log w'
       = [] ++ sheet_statistics
                 {| df_columns := df_columns sample_sheet; df_rows := [] |}
         ++ [(INFO, SavedToStaging); (INFO, Loaded 0);
             (ERROR, ErrorInQualityChecks (UndefinedFunction "> integer"))].
Proof.
  apply (empty_sheet_fails_checks
           {| source_sheet :=
                Some {| df_columns := df_columns sample_sheet;
                        df_rows := [] |};
              staging_writable := true;
              staging_csv := None;
              pg_up := true;
              itsm_raw_tickets := None;
              log := [] |}
           {| df_columns := df_columns sample_sheet; df_rows := [] |});
    try reflexivity; vm_compute; discriminate.
Defined.

Lemma frame_of_records_cell (header : list string)
  (records : list (list csv_field)) (k i : nat) (r : list csv_field) :
  nth_error records k = Some r ->
  (i < List.length header)%nat ->
  nth i r FNa = FNa ->
  exists row,
    nth_error (df_rows (frame_of_records header records)) k = Some row
    /\ cell row i = VNull.
Proof.
  intros Hr Hi Hna. unfold frame_of_records. cbn [df_rows].
  rewrite nth_error_map, Hr. cbn [option_map].
  eexists. split; [reflexivity|].
  unfold cell. apply nth_error_nth.
  rewrite nth_error_map.
  rewrite (map_seq_nth_error _ (List.length header) i Hi).
  cbn [option_map fst snd]. rewrite Hna.
  destruct (infer_dtype (csv_column records i)); reflexivity.
Qed.

(** A ticket without a timestamp, followed through to_csv, read_csv and
    to_sql: its row of the table has NULL for the duration. *)
Lemma unresolved_ticket_null_reloaded (df : DataFrame)
  (hours : list value) (k : nat) (row : list value) (vc vr : value) :
  rectangular df ->
  resolution_time_hours df = inr hours ->
  nth_error (df_rows df) k = Some row ->
  column_cell df row "inc_sys_created_on" = Some vc ->
  column_cell df row "inc_resolved_at" = Some vr ->
  to_datetime_cell vc = inr None \/ to_datetime_cell vr = inr None ->
  exists i ty loaded_row,
    lookup_column "resolution_time_hours"
      (tbl_columns (table_of_frame (reloaded_frame df hours)))
    = Some (i, ty)
    /\ nth_error (tbl_rows (table_of_frame (reloaded_frame df hours))) k
       = Some loaded_row
    /\ cell loaded_row i = VNull
    /\ ~ In loaded_row
           (outlier_rows (table_of_frame (reloaded_frame df hours)) i).
Proof.
  intros Hrect Hres Hrow Hvc Hvr Hmiss.
  pose proof (resolution_time_hours_missing df hours k row vc vr
                Hres Hrow Hvc Hvr Hmiss) as Hnull.
  pose proof (resolution_time_hours_length df hours Hres) as Hlen.
  destruct (setitem_column df "resolution_time_hours" float64 hours
              Hrect Hlen) as (i & Hi & Hcol).
  set (df' := setitem df "resolution_time_hours" float64 hours) in *.
  destruct (table_of_csv_column (column_names df')
              (map (map field_of_value) (df_rows df'))
              "resolution_time_hours" i Hi) as (cells & Hlook & _).
  assert (Hrow' : exists row', nth_error (df_rows df') k = Some row'
                               /\ cell row' i = VNull).
  { assert (Hk : nth_error (map (fun r => cell r i) (df_rows df')) k
                 = Some VNull) by (rewrite Hcol; exact Hnull).
    rewrite nth_error_map in Hk.
    destruct (nth_error (df_rows df') k) as [row'|]; [|discriminate].
    exists row'. split; [reflexivity|]. simpl in Hk. congruence. }
  destruct Hrow' as (row' & Hrow' & Hcell').
  destruct (frame_of_records_cell (column_names df')
              (map (map field_of_value) (df_rows df')) k i
              (map field_of_value row'))
    as (row2 & Hrow2 & Hcell2).
  { rewrite nth_error_map, Hrow'. reflexivity. }
  { now apply (index_of_lt "resolution_time_hours"). }
  { change FNa with (field_of_value VNull) at 1. rewrite map_nth.
    unfold cell in Hcell'. now rewrite Hcell'. }
  exists i. eexists. exists (map sql_value row2).
  split; [exact Hlook|]. split; [|split].
  - unfold table_of_frame. cbn [tbl_rows]. rewrite nth_error_map.
    unfold reloaded_frame. fold df'. now rewrite Hrow2.
  - unfold cell. change VNull with (sql_value VNull) at 1.
    rewrite map_nth. unfold cell in Hcell2. now rewrite Hcell2.
  - intros Hin. apply outlier_rows_In in Hin as [_ Hout].
    unfold cell in Hout. change VNull with (sql_value VNull) in Hout.
    rewrite map_nth in Hout. unfold cell in Hcell2.
    rewrite Hcell2 in Hout. now apply outlier_null.
Qed.

Lemma quality_checks_keep_table (w : World) :
  itsm_raw_tickets (snd (run_data_quality_checks w)) = itsm_raw_tickets w.
Proof.
  pose proof (quality_all_or_raise w) as H.
  destruct (quality_failure w).
  - destruct H as (earlier & ->). reflexivity.
  - destruct H as (w' & -> & d & o & _ & _ & ->). reflexivity.
Qed.

(** X14.  A ticket that lacks its creation or its resolution timestamp
    keeps its place through the staging tasks and has NULL as its duration
    in the table they leave, whatever the other tickets are and whether or
    not the Quality Checker then returns; so the outlier query does not
    count it. *)
Theorem unresolved_ticket_null_in_table (w : World) (df : DataFrame)
  (hours : list value) (k : nat) (row : list value) (vc vr : value) :
  source_sheet w = Some df ->
  rectangular df ->
  resolution_time_hours df = inr hours ->
  staging_writable w = true ->
  pg_up w = true ->
  nth_error (df_rows df) k = Some row ->
  column_cell df row "inc_sys_created_on" = Some vc ->
  column_cell df row "inc_resolved_at" = Some vr ->
  to_datetime_cell vc = inr None \/ to_datetime_cell vr = inr None ->
  exists t i ty loaded_row,
    itsm_raw_tickets (snd (staging_tasks w)) = Some t
    /\ lookup_column "resolution_time_hours" (tbl_columns t) = Some (i, ty)
    /\ nth_error (tbl_rows t) k = Some loaded_row
    /\ cell loaded_row i = VNull
    /\ ~ In loaded_row (outlier_rows t i).
Proof.
  intros Hsheet Hrect Hres Hwr Hup Hrow Hvc Hvr Hmiss.
  destruct (staging_tasks_up_to_checks w df hours Hsheet Hrect Hres Hwr Hup)
    as (w3 & Hrun & _ & Ht3 & _).
  destruct (unresolved_ticket_null_reloaded df hours k row vc vr
              Hrect Hres Hrow Hvc Hvr Hmiss)
    as (i & ty & loaded_row & H1 & H2 & H3 & H4).
  exists (table_of_frame (reloaded_frame df hours)), i, ty, loaded_row.
  split; [|auto].
  now rewrite Hrun, quality_checks_keep_table.
Qed.

Lemma unresolved_ticket_null_in_table_sample :
  exists t i ty loaded_row,
    itsm_raw_tickets (snd (staging_tasks fresh_world)) = Some t
    /\ lookup_column "resolution_time_hours" (tbl_columns t) = Some (i, ty)
    /\ nth_error (tbl_rows t) 1 = Some loaded_row
    /\ cell loaded_row i = VNull
    /\ ~ In loaded_row (outlier_rows t i).
Proof.
  apply (unresolved_ticket_null_in_table fresh_world sample_sheet
           sample_hours 1
           [VStr "INC001"; VTime (mk_timestamp 2024 1 1 0 0 0); VNull]
           (VTime (mk_timestamp 2024 1 1 0 0 0)) VNull);
    try (vm_compute; reflexivity).
  - repeat constructor.
  - right. reflexivity.
Defined.

(** X15.  A warning can come from a run that fails: when the duplicate
    query has answered and the outlier query is then rejected, the log has
    the duplicate warning, if the count was positive, and after it the
    error, and the task raises the error of the outlier query. *)
Theorem duplicate_warning_before_outlier_error (w : World) (d : nat)
  (e : exn) :
  pg_up w = true ->
  duplicate_query (itsm_raw_tickets w) = inr d ->
  outlier_query (itsm_raw_tickets w) = inl e ->
  run_data_quality_checks w
  = (inl e,
     with_log (log w ++ duplicate_warning d
               ++ [(ERROR, ErrorInQualityChecks e)]) w).
Proof.
  intros Hup Hd Ho.
  assert (Hf : quality_failure w = Some e)
    by (unfold quality_failure; now rewrite Hup, Hd, Ho).
  rewrite (quality_checks_raise w e Hf).
  unfold warned_before_failure. now rewrite Hup, Hd.
Qed.

Lemma duplicate_warning_before_outlier_error_sample :
  run_data_quality_checks text_duration_world
  = (inl (UndefinedFunction "> integer"),
     with_log
       (log text_duration_world ++ duplicate_warning 1
        ++ [(ERROR, ErrorInQualityChecks (UndefinedFunction "> integer"))])
       text_duration_world).
Proof.
  apply (duplicate_warning_before_outlier_error text_duration_world 1);
    vm_compute; reflexivity.
Defined.

(** ** The Schema Initializer and the Loader *)

(** X16.  The Loader does not need the table the Schema Initializer makes:
    with the database reachable it returns or raises the same with or
    without a run of the Schema Initializer before it, and when it returns
    it leaves the same table in both cases. *)
Theorem load_ignores_schema_initializer (w : World) :
  pg_up w = true ->
  fst (load_to_postgres (snd (create_staging_table w)))
  = fst (load_to_postgres w)
  /\ (fst (load_to_postgres w) = inr tt ->
      itsm_raw_tickets (snd (load_to_postgres (snd (create_staging_table w))))
      = itsm_raw_tickets (snd (load_to_postgres w))).
Proof.
  intros Hup.
  unfold create_staging_table, postgres_operator. rewrite Hup. cbn [snd].
  set (w1 := with_table (create_table_if_not_exists (itsm_raw_tickets w)) w).
  pose proof (load_all_or_raise w) as H.
  pose proof (load_all_or_raise w1) as H1.
  assert (Hsame : load_failure w1 = load_failure w) by reflexivity.
  rewrite Hsame in H1.
  destruct (load_failure w) as [e|].
  - destruct H as (earlier & ->). destruct H1 as (earlier1 & ->).
    split; [reflexivity|discriminate].
  - destruct H as (w' & -> & file & df & Hfile & Hread & ->).
    destruct H1 as (w1' & -> & file1 & df1 & Hfile1 & Hread1 & ->).
    split; [reflexivity|]. intros _. cbn [snd with_log itsm_raw_tickets
                                            with_table].
    assert (Hf : staging_csv w1 = staging_csv w) by reflexivity.
    rewrite Hf, Hfile in Hfile1. injection Hfile1 as <-.
    rewrite Hread in Hread1. now injection Hread1 as <-.
Qed.

Lemma load_ignores_schema_initializer_sample :
  fst (load_to_postgres (snd (create_staging_table sample_world)))
  = fst (load_to_postgres sample_world)
  /\ (fst (load_to_postgres sample_world) = inr tt ->
      itsm_raw_tickets
        (snd (load_to_postgres (snd (create_staging_table sample_world))))
      = itsm_raw_tickets (snd (load_to_postgres sample_world))).
Proof.
  apply (load_ignores_schema_initializer sample_world). reflexivity.
Defined.
